(** * Observatorio del agua: notification pipeline

    A shallow embedding of the three Python modules of the repository

      - [rabbitmq_utils.py]   connection manager and message codec,
      - [data_publisher.py]   simulated producer and publisher,
      - [admin_consumer.py]   console consumer,

    together with the part of the Python runtime they rely on ([str],
    [bytes], [json.dumps], [json.loads], exceptions) and a small model of
    the broker calls made through [pika].

    The first half of the file holds the definitions, the second half the
    lemmas and the theorems about them. *)

From Stdlib Require Import Decimal DecimalFacts DecimalN Ascii String.
From Stdlib Require Import List NArith ZArith Bool Lia.
From Stdlib Require Strings.Byte.
Import ListNotations.

Set Implicit Arguments.
Set Warnings "-register-all".
Local Open Scope N_scope.

(* ===================================================================== *)
(** * Part I: definitions                                                  *)
(* ===================================================================== *)

(* --------------------------------------------------------------------- *)
(** ** Python values                                                      *)
(* --------------------------------------------------------------------- *)

Module Py.

(** A [str] is a sequence of Unicode code points, a [bytes] object a
    sequence of octets. *)
Definition pystr := list N.
Definition pybytes := list Byte.byte.

(** Code point of an ASCII character, to write the syntax of JSON
    readably. *)
Definition ch (a : ascii) : N := N_of_ascii a.

Definition QUOTE : N := 34.      (* the double quote *)
Definition BACKSLASH : N := 92.

(** A [float].  A finite float is carried by the decimal digits of its
    shortest representation, the one [float.__repr__] prints: a sign, an
    integer part and the digits after the point (values 0..9, most
    significant first).  The binary64 rounding of literals is outside
    this model: two literals that denote different decimals are kept
    distinct. *)
Inductive pyfloat :=
| Finite (neg : bool) (int_part : N) (frac : list N)
| NaN
| Inf (neg : bool).

(** The values the programs handle.  [PyObject] stands for any object
    [json] has no encoding for (a [set], a [bytes], a [datetime], ...). *)
Inductive pyval :=
| PyNone
| PyBool (b : bool)
| PyInt (z : Z)
| PyFloat (f : pyfloat)
| PyStr (s : pystr)
| PyList (l : list pyval)
| PyDict (d : list (pystr * pyval))
| PyObject (type_name : pystr).

(** Exceptions, with the classes the [except] clauses of the sources
    name. *)
Inductive exn :=
| AMQPConnectionError
| ProbableAuthenticationError     (* subclass of AMQPConnectionError *)
| ProbableAccessDeniedError       (* subclass of AMQPConnectionError *)
| AMQPChannelError
| StreamLostError                 (* subclass of AMQPConnectionError *)
| KeyError (key : pystr)
| TypeError
| ValueError
| JSONDecodeError                 (* subclass of ValueError *)
| UnicodeDecodeError              (* subclass of ValueError *)
| UnicodeEncodeError              (* subclass of ValueError *)
| AttributeError
| KeyboardInterrupt.              (* a BaseException, not an Exception *)

Inductive exn_class :=
| ClsException
| ClsAMQPConnectionError
| ClsKeyboardInterrupt.

Definition isinstance (e : exn) (c : exn_class) : bool :=
  match c, e with
  | ClsException, KeyboardInterrupt => false
  | ClsException, _ => true
  | ClsAMQPConnectionError,
    (AMQPConnectionError | ProbableAuthenticationError
     | ProbableAccessDeniedError | StreamLostError) => true
  | ClsAMQPConnectionError, _ => false
  | ClsKeyboardInterrupt, KeyboardInterrupt => true
  | ClsKeyboardInterrupt, _ => false
  end.

(** The outcome of a call: a value, or an exception that unwinds. *)
Inductive result (A : Type) :=
| Return (a : A)
| Raise (e : exn).
Arguments Return {A} a.
Arguments Raise {A} e.

Definition of_option {A} (e : exn) (o : option A) : result A :=
  match o with Some a => Return a | None => Raise e end.

Definition rbind {A B} (r : result A) (k : A -> result B) : result B :=
  match r with Return a => k a | Raise e => Raise e end.

Definition pystr_eqb (a b : pystr) : bool :=
  if list_eq_dec N.eq_dec a b then true else false.

(** [d[k]] on a [dict] held as an insertion-ordered association list. *)
Fixpoint dict_get (d : list (pystr * pyval)) (k : pystr) : option pyval :=
  match d with
  | [] => None
  | (k', v) :: d' => if pystr_eqb k' k then Some v else dict_get d' k
  end.

(** [d[k] = v]: an existing key keeps its position, a new key goes last. *)
Fixpoint dict_set (d : list (pystr * pyval)) (k : pystr) (v : pyval)
  : list (pystr * pyval) :=
  match d with
  | [] => [(k, v)]
  | (k', v') :: d' =>
      if pystr_eqb k' k then (k', v) :: d' else (k', v') :: dict_set d' k v
  end.

(** [dict(pairs)] *)
Definition dict_of_pairs (pairs : list (pystr * pyval))
  : list (pystr * pyval) :=
  fold_left (fun d kv => dict_set d (fst kv) (snd kv)) pairs [].

(** [obj[key]] for a string key: a [dict] looks the key up, every other
    type rejects a string subscript. *)
Definition getitem (obj : pyval) (key : pystr) : result pyval :=
  match obj with
  | PyDict d => of_option (KeyError key) (dict_get d key)
  | _ => Raise TypeError
  end.

(** Truth value testing, as [if x:] does it. *)
Definition truthy (v : pyval) : bool :=
  match v with
  | PyNone => false
  | PyBool b => b
  | PyInt z => negb (Z.eqb z 0)
  | PyFloat (Finite _ i f) => negb ((i =? 0) && forallb (N.eqb 0) f)
  | PyFloat _ => true
  | PyStr s => match s with [] => false | _ => true end
  | PyList l => match l with [] => false | _ => true end
  | PyDict d => match d with [] => false | _ => true end
  | PyObject _ => true
  end.

(** Text in the usual sense: a sequence of Unicode scalar values, that
    is, code points up to U+10FFFF that are not surrogates. *)
Definition valid_cp (c : N) : bool :=
  (c <? 0xD800) || ((0xE000 <=? c) && (c <=? 0x10FFFF)).

Definition valid_text (s : pystr) : bool := forallb valid_cp s.

(** Induction on values, through the lists of a [list] and a
    [dict]. *)
Section PyvalInduction.

Variable P : pyval -> Prop.
Hypothesis HNone : P PyNone.
Hypothesis HBool : forall b, P (PyBool b).
Hypothesis HInt : forall z, P (PyInt z).
Hypothesis HFloat : forall f, P (PyFloat f).
Hypothesis HStr : forall s, P (PyStr s).
Hypothesis HList : forall l, Forall P l -> P (PyList l).
Hypothesis HDict :
  forall d, Forall (fun kv => P (snd kv)) d -> P (PyDict d).
Hypothesis HObject : forall n, P (PyObject n).

Fixpoint pyval_nested_ind (v : pyval) : P v :=
  match v with
  | PyNone => HNone
  | PyBool b => HBool b
  | PyInt z => HInt z
  | PyFloat f => HFloat f
  | PyStr s => HStr s
  | PyList l =>
      HList
        ((fix go (l : list pyval) : Forall P l :=
            match l with
            | [] => Forall_nil P
            | x :: l' => Forall_cons x (pyval_nested_ind x) (go l')
            end) l)
  | PyDict d =>
      HDict
        ((fix go (d : list (pystr * pyval))
            : Forall (fun kv => P (snd kv)) d :=
            match d with
            | [] => Forall_nil _
            | kv :: d' =>
                Forall_cons kv (pyval_nested_ind (snd kv)) (go d')
            end) d)
  | PyObject n => HObject n
  end.

End PyvalInduction.

End Py.
Import Py.

(* --------------------------------------------------------------------- *)
(** ** UTF-8: [str.encode('utf-8')] and [bytes.decode('utf-8')]            *)
(* --------------------------------------------------------------------- *)

Module Utf8.

Definition byte_of (n : N) : Byte.byte :=
  match Byte.of_N n with Some b => b | None => Byte.x00 end.

(** The bytes of one code point; a surrogate has none. *)
Definition encode_cp (c : N) : option (list Byte.byte) :=
  if c <? 0x80 then Some [byte_of c]
  else if c <? 0x800 then
    Some [byte_of (0xC0 + c / 64); byte_of (0x80 + c mod 64)]
  else if (0xD800 <=? c) && (c <=? 0xDFFF) then None
  else if c <? 0x10000 then
    Some [byte_of (0xE0 + c / 4096); byte_of (0x80 + (c / 64) mod 64);
          byte_of (0x80 + c mod 64)]
  else if c <=? 0x10FFFF then
    Some [byte_of (0xF0 + c / 262144); byte_of (0x80 + (c / 4096) mod 64);
          byte_of (0x80 + (c / 64) mod 64); byte_of (0x80 + c mod 64)]
  else None.

Fixpoint encode (s : pystr) : result pybytes :=
  match s with
  | [] => Return []
  | c :: s' =>
      match encode_cp c with
      | None => Raise UnicodeEncodeError
      | Some bs => rbind (encode s') (fun r => Return (bs ++ r))
      end
  end.

Definition between (lo x hi : N) : bool := (lo <=? x) && (x <=? hi).
Definition cont (x : N) : bool := between 0x80 x 0xBF.

(** Strict decoding: overlong forms, surrogates, code points above
    U+10FFFF and truncated sequences are errors. *)
Fixpoint decode_N (bs : list N) : option pystr :=
  match bs with
  | [] => Some []
  | b0 :: r0 =>
      if b0 <? 0x80 then option_map (cons b0) (decode_N r0)
      else if between 0xC2 b0 0xDF then
        match r0 with
        | b1 :: r1 =>
            if cont b1
            then option_map (cons ((b0 - 0xC0) * 64 + (b1 - 0x80)))
                            (decode_N r1)
            else None
        | _ => None
        end
      else if between 0xE0 b0 0xEF then
        match r0 with
        | b1 :: b2 :: r2 =>
            if between (if b0 =? 0xE0 then 0xA0 else 0x80) b1
                       (if b0 =? 0xED then 0x9F else 0xBF) && cont b2
            then option_map
                   (cons ((b0 - 0xE0) * 4096 + (b1 - 0x80) * 64
                          + (b2 - 0x80)))
                   (decode_N r2)
            else None
        | _ => None
        end
      else if between 0xF0 b0 0xF4 then
        match r0 with
        | b1 :: b2 :: b3 :: r3 =>
            if between (if b0 =? 0xF0 then 0x90 else 0x80) b1
                       (if b0 =? 0xF4 then 0x8F else 0xBF)
               && cont b2 && cont b3
            then option_map
                   (cons ((b0 - 0xF0) * 262144 + (b1 - 0x80) * 4096
                          + (b2 - 0x80) * 64 + (b3 - 0x80)))
                   (decode_N r3)
            else None
        | _ => None
        end
      else None
  end.

Definition decode (body : pybytes) : result pystr :=
  of_option UnicodeDecodeError (decode_N (map Byte.to_N body)).

End Utf8.

(** A [str] literal of the sources: the literal's bytes, decoded. *)
Definition str (s : string) : pystr :=
  match Utf8.decode_N (map Byte.to_N (list_byte_of_string s)) with
  | Some l => l
  | None => []
  end.

(* --------------------------------------------------------------------- *)
(** ** The [json] module: [json.dumps] and [json.loads]                    *)
(* --------------------------------------------------------------------- *)

Module Json.

(** *** Encoder ([json.encoder], default options: [ensure_ascii=True],
    [allow_nan=True], separators [", "] and [": "]) *)

Definition hexdigit (d : N) : N := if d <? 10 then 48 + d else 87 + d.

(** ['{0:04x}'.format(n)] *)
Definition hex4 (n : N) : pystr :=
  [hexdigit ((n / 4096) mod 16); hexdigit ((n / 256) mod 16);
   hexdigit ((n / 16) mod 16); hexdigit (n mod 16)].

(** [ESCAPE_DCT] *)
Definition ESCAPE_DCT (c : N) : option pystr :=
  if c =? BACKSLASH then Some [BACKSLASH; BACKSLASH]
  else if c =? QUOTE then Some [BACKSLASH; QUOTE]
  else if c =? 8 then Some [BACKSLASH; ch "b"]
  else if c =? 12 then Some [BACKSLASH; ch "f"]
  else if c =? 10 then Some [BACKSLASH; ch "n"]
  else if c =? 13 then Some [BACKSLASH; ch "r"]
  else if c =? 9 then Some [BACKSLASH; ch "t"]
  else None.

(** The [replace] callback of [py_encode_basestring_ascii]. *)
Definition replace (c : N) : pystr :=
  match ESCAPE_DCT c with
  | Some e => e
  | None =>
      if c <? 0x10000 then BACKSLASH :: ch "u" :: hex4 c
      else
        let n := c - 0x10000 in
        let s1 := N.lor 0xd800 (N.land (N.shiftr n 10) 0x3ff) in
        let s2 := N.lor 0xdc00 (N.land n 0x3ff) in
        (BACKSLASH :: ch "u" :: hex4 s1) ++ (BACKSLASH :: ch "u" :: hex4 s2)
  end.

(** [ESCAPE_ASCII] matches a backslash, a quote, and everything outside
    the range from space to tilde. *)
Definition needs_escape (c : N) : bool :=
  (c =? BACKSLASH) || (c =? QUOTE) || negb ((32 <=? c) && (c <=? 126)).

Definition escape_char (c : N) : pystr :=
  if needs_escape c then replace c else [c].

Definition encode_basestring_ascii (s : pystr) : pystr :=
  QUOTE :: flat_map escape_char s ++ [QUOTE].

Definition digit_char (d : N) : N := 48 + d.

Fixpoint uint_chars (u : uint) : pystr :=
  match u with
  | Nil => []
  | D0 u => ch "0" :: uint_chars u
  | D1 u => ch "1" :: uint_chars u
  | D2 u => ch "2" :: uint_chars u
  | D3 u => ch "3" :: uint_chars u
  | D4 u => ch "4" :: uint_chars u
  | D5 u => ch "5" :: uint_chars u
  | D6 u => ch "6" :: uint_chars u
  | D7 u => ch "7" :: uint_chars u
  | D8 u => ch "8" :: uint_chars u
  | D9 u => ch "9" :: uint_chars u
  end.

(** Decimal digits of a natural number, no leading zero. *)
Definition N_repr (n : N) : pystr := uint_chars (N.to_uint n).

(** [int.__repr__] *)
Definition int_repr (z : Z) : pystr :=
  match z with
  | Zneg p => ch "-" :: N_repr (Npos p)
  | _ => N_repr (Z.to_N z)
  end.

(** [float.__repr__], in the positional notation Python uses for
    magnitudes from 1e-4 up to 1e16; [NaN], [Infinity] and [-Infinity]
    as [floatstr] of the encoder spells them. *)
Definition float_repr (f : pyfloat) : pystr :=
  match f with
  | Finite neg i frac =>
      (if neg then [ch "-"] else []) ++ N_repr i ++ ch "." ::
      map digit_char frac
  | NaN => str "NaN"
  | Inf false => str "Infinity"
  | Inf true => str "-Infinity"
  end.

(** [", ".join(items)] *)
Fixpoint join_comma (items : list pystr) : pystr :=
  match items with
  | [] => []
  | [x] => x
  | x :: rest => x ++ ch "," :: ch " " :: join_comma rest
  end.

Definition sequence {A} (l : list (result A)) : result (list A) :=
  fold_right
    (fun r acc => rbind r (fun a => rbind acc (fun t => Return (a :: t))))
    (Return []) l.

(** [json.dumps(obj)]: raises [TypeError] on an object that is not JSON
    serialisable. *)
Fixpoint dumps (v : pyval) : result pystr :=
  match v with
  | PyNone => Return (str "null")
  | PyBool true => Return (str "true")
  | PyBool false => Return (str "false")
  | PyInt z => Return (int_repr z)
  | PyFloat f => Return (float_repr f)
  | PyStr s => Return (encode_basestring_ascii s)
  | PyList l =>
      rbind (sequence (map dumps l))
            (fun items => Return (ch "[" :: join_comma items ++ [ch "]"]))
  | PyDict d =>
      rbind (sequence
               (map (fun kv =>
                       rbind (dumps (snd kv))
                             (fun t => Return
                                (encode_basestring_ascii (fst kv)
                                 ++ ch ":" :: ch " " :: t)))
                    d))
            (fun items => Return (ch "{" :: join_comma items ++ [ch "}"]))
  | PyObject _ => Raise TypeError
  end.

(** *** Decoder ([json.decoder] and [json.scanner], default options:
    [strict=True], no hooks) *)

Definition is_ws (c : N) : bool :=
  (c =? 32) || (c =? 9) || (c =? 10) || (c =? 13).

(** [WHITESPACE.match(s, end).end()] *)
Fixpoint skip_ws (s : pystr) : pystr :=
  match s with
  | c :: s' => if is_ws c then skip_ws s' else s
  | [] => []
  end.

(** [s[idx:idx+len(p)] == p], giving what follows. *)
Fixpoint strip_prefix (p s : pystr) : option pystr :=
  match p, s with
  | [], _ => Some s
  | a :: p', b :: s' => if a =? b then strip_prefix p' s' else None
  | _ :: _, [] => None
  end.

Definition hexval (c : N) : option N :=
  if (48 <=? c) && (c <=? 57) then Some (c - 48)
  else if (97 <=? c) && (c <=? 102) then Some (c - 87)
  else if (65 <=? c) && (c <=? 70) then Some (c - 55)
  else None.

(** [_decode_uXXXX]: four hexadecimal digits, as the scanner of the C
    accelerator, the one [json] uses by default, requires them. *)
Definition decode_uXXXX (s : pystr) : option (N * pystr) :=
  match s with
  | a :: b :: c :: d :: rest =>
      match hexval a, hexval b, hexval c, hexval d with
      | Some x3, Some x2, Some x1, Some x0 =>
          Some (((x3 * 16 + x2) * 16 + x1) * 16 + x0, rest)
      | _, _, _, _ => None
      end
  | _ => None
  end.

(** [BACKSLASH] table of the decoder. *)
Definition BACKSLASH_DCT (e : N) : option N :=
  if e =? QUOTE then Some QUOTE
  else if e =? BACKSLASH then Some BACKSLASH
  else if e =? ch "/" then Some (ch "/")
  else if e =? ch "b" then Some 8
  else if e =? ch "f" then Some 12
  else if e =? ch "n" then Some 10
  else if e =? ch "r" then Some 13
  else if e =? ch "t" then Some 9
  else None.

Definition cons_fst {A B} (a : A) (r : option (list A * B))
  : option (list A * B) :=
  match r with Some (l, b) => Some (a :: l, b) | None => None end.

(** [py_scanstring], entered after the opening quote: the content of the
    string and what follows the closing quote.  Every round of the loop
    consumes a character, so [length s] rounds are enough for [s]. *)
Fixpoint scanstring (fuel : nat) (s : pystr) : option (pystr * pystr) :=
  match fuel with
  | O => None
  | S fuel' =>
      match s with
      | [] => None                          (* unterminated string *)
      | c :: s1 =>
          if c =? QUOTE then Some ([], s1)
          else if c =? BACKSLASH then
            match s1 with
            | [] => None
            | e :: s2 =>
                if e =? ch "u" then
                  match decode_uXXXX s2 with
                  | None => None
                  | Some (uni, s3) =>
                      if (0xd800 <=? uni) && (uni <=? 0xdbff) then
                        match strip_prefix [BACKSLASH; ch "u"] s3 with
                        | Some s4 =>
                            match decode_uXXXX s4 with
                            | None => None
                            | Some (uni2, s5) =>
                                if (0xdc00 <=? uni2) && (uni2 <=? 0xdfff)
                                then
                                  cons_fst
                                    (0x10000 +
                                     N.lor (N.shiftl (uni - 0xd800) 10)
                                           (uni2 - 0xdc00))
                                    (scanstring fuel' s5)
                                else cons_fst uni (scanstring fuel' s3)
                            end
                        | None => cons_fst uni (scanstring fuel' s3)
                        end
                      else cons_fst uni (scanstring fuel' s3)
                  end
                else
                  match BACKSLASH_DCT e with
                  | None => None                     (* invalid escape *)
                  | Some c' => cons_fst c' (scanstring fuel' s2)
                  end
            end
          else if c <? 32 then None      (* invalid control character *)
          else cons_fst c (scanstring fuel' s1)
      end
  end.

Definition is_digit (c : N) : bool := (48 <=? c) && (c <=? 57).
Definition digit_val (c : N) : N := c - 48.

(** The longest run of digits. *)
Fixpoint span_digits (s : pystr) : pystr * pystr :=
  match s with
  | c :: s' =>
      if is_digit c
      then let (ds, r) := span_digits s' in (c :: ds, r)
      else ([], s)
  | [] => ([], [])
  end.

Definition digit_cons (c : N) (u : uint) : uint :=
  match digit_val c with
  | 0 => D0 u | 1 => D1 u | 2 => D2 u | 3 => D3 u | 4 => D4 u
  | 5 => D5 u | 6 => D6 u | 7 => D7 u | 8 => D8 u | _ => D9 u
  end.

Definition uint_of_chars (s : pystr) : uint :=
  fold_right digit_cons Nil s.

Definition N_of_chars (s : pystr) : N := N.of_uint (uint_of_chars s).

(** What [NUMBER_RE] matches: an optional minus sign and an integer part
    (a single zero, or digits that start with a non-zero one), then
    optionally a point with one digit or more, then optionally an
    exponent ([e] or [E], an optional sign, one digit or more). *)
Record number_match := {
  m_neg : bool;
  m_int : pystr;
  m_frac : option pystr;
  m_exp : option Z
}.

Definition match_integer (s : pystr) : option (bool * pystr * pystr) :=
  let '(neg, s1) :=
    match s with
    | c :: s' => if c =? ch "-" then (true, s') else (false, s)
    | [] => (false, s)
    end in
  match s1 with
  | c :: s2 =>
      if c =? ch "0" then Some (neg, [c], s2)
      else if is_digit c
      then let (ds, r) := span_digits s2 in Some (neg, c :: ds, r)
      else None
  | [] => None
  end.

Definition match_frac (s : pystr) : option pystr * pystr :=
  match s with
  | c :: s1 =>
      if c =? ch "." then
        match span_digits s1 with
        | ([], _) => (None, s)
        | (ds, r) => (Some ds, r)
        end
      else (None, s)
  | [] => (None, s)
  end.

Definition match_exp (s : pystr) : option Z * pystr :=
  match s with
  | c :: s1 =>
      if (c =? ch "e") || (c =? ch "E") then
        let '(neg, s2) :=
          match s1 with
          | d :: s' =>
              if d =? ch "-" then (true, s')
              else if d =? ch "+" then (false, s')
              else (false, s1)
          | [] => (false, s1)
          end in
        match span_digits s2 with
        | ([], _) => (None, s)
        | (ds, r) =>
            let e := Z.of_N (N_of_chars ds) in
            (Some (if neg then Z.opp e else e), r)
        end
      else (None, s)
  | [] => (None, s)
  end.

Definition match_number (s : pystr) : option (number_match * pystr) :=
  match match_integer s with
  | None => None
  | Some (neg, ip, s1) =>
      let (fr, s2) := match_frac s1 in
      let (ex, s3) := match_exp s2 in
      Some ({| m_neg := neg; m_int := ip; m_frac := fr; m_exp := ex |}, s3)
  end.

Fixpoint drop_zeros (l : list N) : list N :=
  match l with
  | 0 :: l' => drop_zeros l'
  | _ => l
  end.

(** The digits after the point as [repr] shows them: no trailing zero,
    but at least one digit. *)
Definition normalise_frac (ds : list N) : list N :=
  match rev (drop_zeros (rev ds)) with
  | [] => [0]
  | r => r
  end.

(** [float(integer + frac + exp)] for a literal the number pattern
    matched: the decimal point is moved by the exponent.  (The range
    limits of binary64, where Python gives [inf] or [0.0], are not
    modelled.) *)
Definition float_of_literal (neg : bool) (ip fp : pystr) (e : Z)
  : pyfloat :=
  let zero := ch "0" in
  let '(ip', fp') :=
    if (0 <=? e)%Z then
      let n := Z.to_nat e in
      (ip ++ firstn n (fp ++ repeat zero n), skipn n fp)
    else
      let n := Z.to_nat (- e) in
      let p := repeat zero n ++ ip in
      (firstn (length p - n) p, skipn (length p - n) p ++ fp) in
  Finite neg (N_of_chars ip') (normalise_frac (map digit_val fp')).

Definition number_value (m : number_match) : pyval :=
  match m_frac m, m_exp m with
  | None, None =>
      let n := Z.of_N (N_of_chars (m_int m)) in
      PyInt (if m_neg m then Z.opp n else n)
  | fr, ex =>
      PyFloat (float_of_literal (m_neg m) (m_int m)
                 (match fr with Some ds => ds | None => [] end)
                 (match ex with Some e => e | None => 0%Z end))
  end.

Section Containers.

Variable scan_once : pystr -> option (pyval * pystr).

(** The loop of [JSONArray], entered on a value. *)
Fixpoint array_loop (n : nat) (s : pystr)
  : option (list pyval * pystr) :=
  match n with
  | O => None
  | S n' =>
      match scan_once s with
      | None => None                         (* expecting value *)
      | Some (value, s1) =>
          match skip_ws s1 with
          | c :: s2 =>
              if c =? ch "]" then Some ([value], s2)
              else if c =? ch "," then
                cons_fst value (array_loop n' (skip_ws s2))
              else None                    (* expecting ',' *)
          | [] => None
          end
      end
  end.

(** [JSONArray], entered after the opening bracket. *)
Definition JSONArray (n : nat) (s : pystr) : option (pyval * pystr) :=
  match skip_ws s with
  | c :: s1 =>
      if c =? ch "]" then Some (PyList [], s1)
      else
        match array_loop n (skip_ws s) with
        | Some (values, r) => Some (PyList values, r)
        | None => None
        end
  | [] => None
  end.

(** The loop of [JSONObject], entered after the opening quote of a
    key. *)
Fixpoint object_loop (n : nat) (s : pystr)
  : option (list (pystr * pyval) * pystr) :=
  match n with
  | O => None
  | S n' =>
      match scanstring (length s) s with
      | None => None
      | Some (key, s1) =>
          match skip_ws s1 with
          | c :: s2 =>
              if c =? ch ":" then
                match scan_once (skip_ws s2) with
                | None => None                 (* expecting value *)
                | Some (value, s3) =>
                    match skip_ws s3 with
                    | c' :: s4 =>
                        if c' =? ch "}" then Some ([(key, value)], s4)
                        else if c' =? ch "," then
                          match skip_ws s4 with
                          | q :: s5 =>
                              if q =? QUOTE
                              then cons_fst (key, value)
                                     (object_loop n' s5)
                              else None   (* expecting property name *)
                          | [] => None
                          end
                        else None              (* expecting ',' *)
                    | [] => None
                    end
                end
              else None                        (* expecting ':' *)
          | [] => None
          end
      end
  end.

(** [JSONObject], entered after the opening brace. *)
Definition JSONObject (n : nat) (s : pystr) : option (pyval * pystr) :=
  match skip_ws s with
  | c :: s1 =>
      if c =? QUOTE then
        match object_loop n s1 with
        | Some (pairs, r) => Some (PyDict (dict_of_pairs pairs), r)
        | None => None
        end
      else if c =? ch "}" then Some (PyDict [], s1)
      else None                     (* expecting property name *)
  | [] => None
  end.

End Containers.

(** [_scan_once] of [py_make_scanner].  A nested value is scanned with
    one unit of fuel less; so is every round of the loops over the
    elements of a container. *)
Fixpoint scan_once (fuel : nat) (s : pystr) : option (pyval * pystr) :=
  match fuel with
  | O => None
  | S f =>
      match s with
      | [] => None
      | c :: s1 =>
          if c =? QUOTE then
            match scanstring (length s1) s1 with
            | Some (t, r) => Some (PyStr t, r)
            | None => None
            end
          else if c =? ch "{" then JSONObject (scan_once f) f s1
          else if c =? ch "[" then JSONArray (scan_once f) f s1
          else
            match strip_prefix (str "null") s,
                  strip_prefix (str "true") s,
                  strip_prefix (str "false") s with
            | Some r, _, _ => Some (PyNone, r)
            | _, Some r, _ => Some (PyBool true, r)
            | _, _, Some r => Some (PyBool false, r)
            | None, None, None =>
                match match_number s with
                | Some (m, r) => Some (number_value m, r)
                | None =>
                    match strip_prefix (str "NaN") s,
                          strip_prefix (str "Infinity") s,
                          strip_prefix (str "-Infinity") s with
                    | Some r, _, _ => Some (PyFloat NaN, r)
                    | _, Some r, _ => Some (PyFloat (Inf false), r)
                    | _, _, Some r => Some (PyFloat (Inf true), r)
                    | None, None, None => None
                    end
                end
            end
      end
  end.

(** [json.loads(s)] for a [str]: [JSONDecoder.decode], which rejects a
    byte order mark, skips white space around the value and rejects
    extra data. *)
Definition loads (s : pystr) : result pyval :=
  match s with
  | 0xfeff :: _ => Raise JSONDecodeError
  | _ =>
      match scan_once (S (length s)) (skip_ws s) with
      | Some (obj, r) =>
          match skip_ws r with
          | [] => Return obj
          | _ :: _ => Raise JSONDecodeError
          end
      | None => Raise JSONDecodeError
      end
  end.

(** *** Shapes of text, for the statements about the encoder *)




(** Text made of ASCII characters only. *)
Definition ascii_text (t : pystr) : Prop := Forall (fun c => c < 128) t.

Section ReadsBack.

Variable scan : pystr -> option (pyval * pystr).



End ReadsBack.

End Json.

(* --------------------------------------------------------------------- *)
(** ** The data model of the notifications                                *)
(* --------------------------------------------------------------------- *)

Module DataModel.

(** The value of a measurement: an [int] or a [float]. *)
Inductive number :=
| IntValue (z : Z)
| FloatValue (f : pyfloat).

Record Measurement := {
  parameter : pystr;
  value : number;
  unit_label : pystr;                 (* key [unit] *)
  threshold_exceeded : bool
}.

Record UploadRecord := {
  batch_id : pystr;
  timestamp : pystr;
  location : pystr;
  reporting_entity : pystr;
  measurements : list Measurement;
  metadata : list (pystr * pyval)
}.

Record Envelope := {
  event_type : pystr;
  envelope_timestamp : pystr;         (* key [timestamp] *)
  data : UploadRecord
}.

Definition number_to_py (n : number) : pyval :=
  match n with IntValue z => PyInt z | FloatValue f => PyFloat f end.

(** The [dict] appended to [measurements] in [simulate_data_upload]. *)
Definition measurement_to_py (m : Measurement) : pyval :=
  PyDict [(str "parameter", PyStr (parameter m));
          (str "value", number_to_py (value m));
          (str "unit", PyStr (unit_label m));
          (str "threshold_exceeded", PyBool (threshold_exceeded m))].

(** The [data] of [simulate_data_upload]. *)
Definition upload_to_py (r : UploadRecord) : pyval :=
  PyDict [(str "batch_id", PyStr (batch_id r));
          (str "timestamp", PyStr (timestamp r));
          (str "location", PyStr (location r));
          (str "reporting_entity", PyStr (reporting_entity r));
          (str "measurements",
           PyList (map measurement_to_py (measurements r)));
          (str "metadata", PyDict (metadata r))].

(** The [notification] of [publish_notification]. *)
Definition envelope_to_py (e : Envelope) : pyval :=
  PyDict [(str "event_type", PyStr (event_type e));
          (str "timestamp", PyStr (envelope_timestamp e));
          (str "data", upload_to_py (data e))].

(** [wrap]: the envelope [publish_notification] builds around a record
    at time [now]. *)
Definition wrap (now : pystr) (r : UploadRecord) : Envelope :=
  {| event_type := str "data_upload"; envelope_timestamp := now;
     data := r |}.

(** *** Well-formed values

    Text is valid in the sense of [valid_text].  A float is finite, in
    the form [repr] prints (digits after the point without trailing
    zero) and in the range where [repr] uses positional notation.  A
    [dict] has each key once. *)

Definition N_list_eqb (a b : list N) : bool :=
  if list_eq_dec N.eq_dec a b then true else false.

Definition positional (i : N) (frac : list N) : bool :=
  (i <? 10 ^ 16)
  && ((0 <? i) || N_list_eqb frac [0]
      || existsb (fun d => negb (d =? 0)) (firstn 4 frac)).

Definition valid_float (f : pyfloat) : bool :=
  match f with
  | Finite _ i frac =>
      forallb (fun d => d <? 10) frac
      && N_list_eqb (Json.normalise_frac frac) frac
      && positional i frac
  | _ => false
  end.

Fixpoint distinct_keys (d : list (pystr * pyval)) : bool :=
  match d with
  | [] => true
  | (k, _) :: d' =>
      negb (existsb (fun kv => pystr_eqb (fst kv) k) d')
      && distinct_keys d'
  end.

Fixpoint valid_value (v : pyval) : bool :=
  match v with
  | PyNone | PyBool _ | PyInt _ => true
  | PyFloat f => valid_float f
  | PyStr s => valid_text s
  | PyList l => forallb valid_value l
  | PyDict d =>
      forallb (fun kv => valid_text (fst kv) && valid_value (snd kv)) d
      && distinct_keys d
  | PyObject _ => false
  end.

Definition valid_number (n : number) : bool :=
  match n with IntValue _ => true | FloatValue f => valid_float f end.

Definition valid_measurement (m : Measurement) : bool :=
  valid_text (parameter m) && valid_number (value m)
  && valid_text (unit_label m).

Definition valid_upload (r : UploadRecord) : bool :=
  valid_text (batch_id r) && valid_text (timestamp r)
  && valid_text (location r) && valid_text (reporting_entity r)
  && forallb valid_measurement (measurements r)
  && valid_value (PyDict (metadata r)).



End DataModel.
Import DataModel.

(* --------------------------------------------------------------------- *)
(** ** The process and its environment                                    *)
(* --------------------------------------------------------------------- *)

Module Runtime.

Inductive level := DEBUG | INFO | ERROR.

(** The log lines of the three modules, by their content. *)
Inductive log_msg :=
| LogConnected (host : pystr) (port : N)
| LogConnectError (e : exn)
| LogClosed
| LogSerializeError (e : exn)
| LogDeserializeError (e : exn)
| LogSimulated (batch_id location : pystr)
| LogPublished (batch_id : pyval)
| LogPublishError (e : exn)
| LogCannotConnect
| LogSimulationStarted (interval : N)
| LogSimulationInterrupted
| LogReceived (data : pyval)
| LogStartConsuming
| LogConsumeError (e : exn)
| LogConsumerError (e : exn)
| LogConsumerDone.

(** What [ConsoleNotifier] prints, by content (colours and wording are
    left out). *)
Inductive out_line :=
| OutHeader (notification_count : N)
| OutTitle
| OutField (label : pystr) (value : pyval)
| OutMeasurementsHeading
| OutMeasurement (i : N) (param value unit : pyval) (alert : bool)
| OutAlert (n : N)
| OutReviewRequired
| OutFooter.

(** The calls made to the broker through the client library. *)
Inductive pika_call :=
| BlockingConnection (host : pystr) (port : N) (virtual_host user password
                      : pystr) (heartbeat : N)
| Channel
| ExchangeDeclare (exchange exchange_type : pystr) (durable : bool)
| QueueDeclare (queue : pystr) (durable : bool)
| QueueBind (exchange queue routing_key : pystr)
| BasicQos (prefetch_count : N)
| BasicConsume (queue : pystr)
| BasicPublish (exchange routing_key : pystr) (body : pybytes)
               (delivery_mode : N) (content_type : pystr)
| BasicAck (delivery_tag : N)
| StartConsuming
| StopConsuming
| ConnectionClose.

(** What the process does not decide: the answers of the broker, the
    random generator, the clock and the operator. *)
Record environment := {
  (** the exception, if any, a call to the client library raises, given
      the calls made before it *)
  env_pika : list pika_call -> pika_call -> option exn;
  (** raw draws of the [random] module, by draw number *)
  env_random : nat -> N;
  (** [str(uuid.uuid4())], by call number *)
  env_uuid4 : nat -> pystr;
  (** [datetime.now().isoformat()], by call number *)
  env_now : nat -> pystr;
  (** the messages the broker delivers to a consumer: delivery tag and
      body, oldest first *)
  env_deliveries : list (N * pybytes);
  (** how many rounds of the publisher's loop complete before the
      operator interrupts it *)
  env_rounds : nat
}.

(** A [RabbitMQConnection] object.  [connection] and [channel] are [None]
    until [connect] sets them; the flag is their [is_open]. *)
Record RabbitMQConnection := {
  host : pystr;
  port : N;
  user : pystr;
  password : pystr;
  virtual_host : pystr;
  connection : option bool;
  channel : option bool
}.

(** The state of a process: its one connection object, its one notifier,
    and what it has emitted so far (oldest first). *)
Record world := {
  w_env : environment;
  w_rmq : RabbitMQConnection;
  w_notification_count : N;
  w_log : list (level * log_msg);
  w_stdout : list out_line;
  w_calls : list pika_call;
  w_draws : nat;
  w_uuids : nat;
  w_clock : nat
}.

(** Computations: state passing, with exceptions that keep the effects
    made before they were raised. *)
Definition M (A : Type) := world -> result A * world.

Definition ret {A} (a : A) : M A := fun w => (Return a, w).
Definition raise {A} (e : exn) : M A := fun w => (Raise e, w).
Definition lift {A} (r : result A) : M A := fun w => (r, w).

Definition bind {A B} (m : M A) (k : A -> M B) : M B :=
  fun w =>
    match m w with
    | (Return a, w') => k a w'
    | (Raise e, w') => (Raise e, w')
    end.

(** [try: body / except cls as e: handler e] *)
Definition try_except {A} (body : M A) (cls : exn_class)
  (handler : exn -> M A) : M A :=
  fun w =>
    match body w with
    | (Return a, w') => (Return a, w')
    | (Raise e, w') =>
        if isinstance e cls then handler e w' else (Raise e, w')
    end.

(** [try: body / finally: cleanup] *)
Definition try_finally {A} (body : M A) (cleanup : M unit) : M A :=
  fun w =>
    let (r, w') := body w in
    match cleanup w' with
    | (Return _, w'') => (r, w'')
    | (Raise e, w'') => (Raise e, w'')
    end.

Definition get : M world := fun w => (Return w, w).

(** The updates of the state. *)
Definition with_rmq (w : world) (r : RabbitMQConnection) : world :=
  {| w_env := w_env w; w_rmq := r;
     w_notification_count := w_notification_count w;
     w_log := w_log w; w_stdout := w_stdout w; w_calls := w_calls w;
     w_draws := w_draws w; w_uuids := w_uuids w; w_clock := w_clock w |}.

Definition with_notification_count (w : world) (n : N) : world :=
  {| w_env := w_env w; w_rmq := w_rmq w; w_notification_count := n;
     w_log := w_log w; w_stdout := w_stdout w; w_calls := w_calls w;
     w_draws := w_draws w; w_uuids := w_uuids w; w_clock := w_clock w |}.

Definition add_log (w : world) (entries : list (level * log_msg))
  : world :=
  {| w_env := w_env w; w_rmq := w_rmq w;
     w_notification_count := w_notification_count w;
     w_log := w_log w ++ entries; w_stdout := w_stdout w;
     w_calls := w_calls w; w_draws := w_draws w; w_uuids := w_uuids w;
     w_clock := w_clock w |}.

Definition add_stdout (w : world) (lines : list out_line) : world :=
  {| w_env := w_env w; w_rmq := w_rmq w;
     w_notification_count := w_notification_count w;
     w_log := w_log w; w_stdout := w_stdout w ++ lines;
     w_calls := w_calls w; w_draws := w_draws w; w_uuids := w_uuids w;
     w_clock := w_clock w |}.

Definition add_calls (w : world) (calls : list pika_call) : world :=
  {| w_env := w_env w; w_rmq := w_rmq w;
     w_notification_count := w_notification_count w;
     w_log := w_log w; w_stdout := w_stdout w;
     w_calls := w_calls w ++ calls; w_draws := w_draws w;
     w_uuids := w_uuids w; w_clock := w_clock w |}.

Definition next_draw (w : world) : world :=
  {| w_env := w_env w; w_rmq := w_rmq w;
     w_notification_count := w_notification_count w;
     w_log := w_log w; w_stdout := w_stdout w; w_calls := w_calls w;
     w_draws := S (w_draws w); w_uuids := w_uuids w;
     w_clock := w_clock w |}.

Definition next_uuid (w : world) : world :=
  {| w_env := w_env w; w_rmq := w_rmq w;
     w_notification_count := w_notification_count w;
     w_log := w_log w; w_stdout := w_stdout w; w_calls := w_calls w;
     w_draws := w_draws w; w_uuids := S (w_uuids w);
     w_clock := w_clock w |}.

Definition tick (w : world) : world :=
  {| w_env := w_env w; w_rmq := w_rmq w;
     w_notification_count := w_notification_count w;
     w_log := w_log w; w_stdout := w_stdout w; w_calls := w_calls w;
     w_draws := w_draws w; w_uuids := w_uuids w;
     w_clock := S (w_clock w) |}.

Definition set_rmq (r : RabbitMQConnection) : M unit :=
  fun w => (Return tt, with_rmq w r).

Definition set_notification_count (n : N) : M unit :=
  fun w => (Return tt, with_notification_count w n).

(** [logger.<level>(msg)] *)
Definition log (l : level) (m : log_msg) : M unit :=
  fun w => (Return tt, add_log w [(l, m)]).

(** [print(line)] *)
Definition print (o : out_line) : M unit :=
  fun w => (Return tt, add_stdout w [o]).

(** A call to the client library: it is made, then it returns or raises
    as the environment has it. *)
Definition pika (c : pika_call) : M unit :=
  fun w =>
    match env_pika (w_env w) (w_calls w) c with
    | Some e => (Raise e, add_calls w [c])
    | None => (Return tt, add_calls w [c])
    end.

(** The next raw draw of the random generator. *)
Definition draw : M N :=
  fun w => (Return (env_random (w_env w) (w_draws w)), next_draw w).

(** [str(uuid.uuid4())] *)
Definition uuid4 : M pystr :=
  fun w => (Return (env_uuid4 (w_env w) (w_uuids w)), next_uuid w).

(** [datetime.now().isoformat()] *)
Definition now_isoformat : M pystr :=
  fun w => (Return (env_now (w_env w) (w_clock w)), tick w).

(** Computations that make no call to the client library. *)
Definition silent {A} (m : M A) : Prop :=
  forall w, w_calls (snd (m w)) = w_calls w.

(** Computations that return, from every state where [I] holds, a value
    with the property [P], in a state where [I] holds. *)
Definition returns {A} (I : world -> Prop) (P : A -> Prop) (m : M A)
  : Prop :=
  forall w, I w -> exists a w', m w = (Return a, w') /\ P a /\ I w'.

(** An environment whose identifiers and timestamps are text. *)
Definition text_environment (w : world) : Prop :=
  (forall n, valid_text (env_uuid4 (w_env w) n) = true)
  /\ (forall n, valid_text (env_now (w_env w) n) = true).

(** [random.randint(a, b)], for [a <= b] *)
Definition randint (a b : N) : M N :=
  bind draw (fun r => ret (a + r mod (b - a + 1))).

(** [random.choice(seq)] on a non-empty list, [default] standing for its
    first element. *)
Definition choice {A} (default : A) (seq : list A) : M A :=
  bind draw (fun r =>
    ret (nth (N.to_nat (r mod N.of_nat (length seq))) seq default)).

(** [random.random() < 0.2] *)
Definition random_below_one_fifth : M bool :=
  bind draw (fun r => ret (r mod 5 =? 0)).

(** The float [k / 10^nd], as [repr] shows it. *)
Definition rounded (k : N) (nd : nat) : pyfloat :=
  let scale := 10 ^ N.of_nat nd in
  let frac :=
    map (fun i => ((k mod scale) / 10 ^ N.of_nat (nd - 1 - i)) mod 10)
        (seq 0 nd) in
  Finite false (k / scale) (Json.normalise_frac frac).

(** [round(random.uniform(lo, hi), nd)]: a float with at most [nd]
    decimals, between the bounds; the bounds are given in units of
    [10^-nd]. *)
Definition round_uniform (lo hi : N) (nd : nat) : M pyfloat :=
  bind draw (fun r => ret (rounded (lo + r mod (hi - lo + 1)) nd)).

(** [for x in xs: body x] *)
Fixpoint for_each {A} (xs : list A) (body : A -> M unit) : M unit :=
  match xs with
  | [] => ret tt
  | x :: xs' => bind (body x) (fun _ => for_each xs' body)
  end.

(** [[f x for x in xs]] *)
Fixpoint map_m {A B} (f : A -> M B) (xs : list A) : M (list B) :=
  match xs with
  | [] => ret []
  | x :: xs' =>
      bind (f x) (fun y => bind (map_m f xs') (fun ys => ret (y :: ys)))
  end.

(** [threading.Thread(target=body).start()], run to its end: an
    exception that leaves [body] ends the thread and is not raised in
    the thread that started it. *)
Definition run_thread (body : M unit) : M unit :=
  fun w => (Return tt, snd (body w)).

(** [iter(v)]: the elements a [for] loop over [v] visits. *)
Definition iterate (v : pyval) : result (list pyval) :=
  match v with
  | PyList l => Return l
  | PyStr s => Return (map (fun c => PyStr [c]) s)
  | PyDict d => Return (map (fun kv => PyStr (fst kv)) d)
  | _ => Raise TypeError
  end.

End Runtime.
Import Runtime.

Declare Scope py_scope.
Delimit Scope py_scope with py.
Notation "x <- m ;; k" := (bind m (fun x => k))
  (at level 61, m at next level, right associativity) : py_scope.
Notation "m ;; k" := (bind m (fun _ => k))
  (at level 61, right associativity) : py_scope.

Local Open Scope py_scope.

(* --------------------------------------------------------------------- *)
(** ** [rabbitmq_utils.py]                                                *)
(* --------------------------------------------------------------------- *)

Module RabbitmqUtils.

Definition EXCHANGE_NAME : pystr := str "observatorio_events".
Definition QUEUE_NAME : pystr := str "admin_notifications".
Definition ROUTING_KEY : pystr := str "water.data.uploaded".

(** [RabbitMQConnection.__init__] *)
Definition new_connection (host : pystr) (port : N) (user password : pystr)
  : RabbitMQConnection :=
  {| host := host; port := port; user := user; password := password;
     virtual_host := str "/"; connection := None; channel := None |}.

(** The state of a process when its [main] has read the command line
    and made its connection object. *)
Definition initial_world (env : environment) (host : pystr) (port : N)
  (user password : pystr) : world :=
  {| w_env := env; w_rmq := new_connection host port user password;
     w_notification_count := 0; w_log := []; w_stdout := [];
     w_calls := []; w_draws := 0; w_uuids := 0; w_clock := 0 |}.

(** How the broker refuses a connection, and the exception of the client
    library for it: [AMQPConnectionError] when the broker cannot be
    reached, its subclass [ProbableAuthenticationError] when the broker
    closes the connection on the credentials. *)
Inductive connect_failure := BrokerUnreachable | CredentialsRejected.

Definition pika_connect_error (f : connect_failure) : exn :=
  match f with
  | BrokerUnreachable => AMQPConnectionError
  | CredentialsRejected => ProbableAuthenticationError
  end.

(** The call [connect] opens the connection with. *)
Definition connection_call (r : RabbitMQConnection) : pika_call :=
  BlockingConnection (host r) (port r) (virtual_host r) (user r)
    (password r) 600.

Definition with_connection (r : RabbitMQConnection) (c : option bool)
  : RabbitMQConnection :=
  {| host := host r; port := port r; user := user r;
     password := password r; virtual_host := virtual_host r;
     connection := c; channel := channel r |}.

Definition with_channel (r : RabbitMQConnection) (c : option bool)
  : RabbitMQConnection :=
  {| host := host r; port := port r; user := user r;
     password := password r; virtual_host := virtual_host r;
     connection := connection r; channel := c |}.

(** [RabbitMQConnection.connect] *)
Definition connect : M bool :=
  try_except
    (w <- get ;;
     let self := w_rmq w in
     pika (connection_call self) ;;
     set_rmq (with_connection self (Some true)) ;;
     pika Channel ;;
     w <- get ;;
     set_rmq (with_channel (w_rmq w) (Some true)) ;;
     pika (ExchangeDeclare EXCHANGE_NAME (str "topic") true) ;;
     w <- get ;;
     log INFO (LogConnected (host (w_rmq w)) (port (w_rmq w))) ;;
     ret true)
    ClsAMQPConnectionError
    (fun e => log ERROR (LogConnectError e) ;; ret false).

(** [RabbitMQConnection.close] *)
Definition close : M unit :=
  w <- get ;;
  match connection (w_rmq w) with
  | Some true =>
      pika ConnectionClose ;;
      w <- get ;;
      set_rmq (with_channel (with_connection (w_rmq w) (Some false))
                 (option_map (fun _ => false) (channel (w_rmq w)))) ;;
      log INFO LogClosed
  | _ => ret tt
  end.

Definition serialization_error_marker : pyval :=
  PyDict [(str "error", PyStr (str "Error de serialización"))].

Definition deserialization_error_marker : pyval :=
  PyDict [(str "error", PyStr (str "Error al deserializar mensaje"))].

(** [json.dumps(data).encode('utf-8')] *)
Definition dumps_utf8 (data : pyval) : result pybytes :=
  rbind (Json.dumps data) Utf8.encode.

(** [json.loads(body.decode('utf-8'))] *)
Definition loads_utf8 (body : pybytes) : result pyval :=
  rbind (Utf8.decode body) Json.loads.

(** [serialize_message] *)
Definition serialize_message (data : pyval) : M pybytes :=
  try_except
    (lift (dumps_utf8 data))
    ClsException
    (fun e =>
       log ERROR (LogSerializeError e) ;;
       lift (dumps_utf8 serialization_error_marker)).

(** [deserialize_message] *)
Definition deserialize_message (body : pybytes) : M pyval :=
  try_except
    (lift (loads_utf8 body))
    ClsException
    (fun e =>
       log ERROR (LogDeserializeError e) ;;
       ret deserialization_error_marker).

End RabbitmqUtils.
Import RabbitmqUtils.

(* --------------------------------------------------------------------- *)
(** ** [data_publisher.py]                                                *)
(* --------------------------------------------------------------------- *)

Module DataPublisher.

Definition WATER_PARAMETERS : list pystr :=
  [str "pH"; str "Turbidez"; str "Oxígeno disuelto"; str "Conductividad";
   str "Coliformes totales"; str "E. coli"; str "Nitratos";
   str "Fosfatos"; str "Temperatura"; str "Sólidos suspendidos"].

Definition SAMPLE_LOCATIONS : list pystr :=
  [str "Río Principal - Estación Norte";
   str "Río Principal - Estación Centro";
   str "Río Principal - Estación Sur";
   str "Afluente Este";
   str "Afluente Oeste";
   str "Laguna Central";
   str "Embalse Municipal"].

Definition REPORTING_ENTITIES : list pystr :=
  [str "Secretaría de Medio Ambiente";
   str "Instituto Hidrológico Municipal";
   str "Universidad Autónoma - Facultad de Ingeniería Ambiental";
   str "Empresa de Servicios Públicos";
   str "ONG EcoAgua"].

(** The body of the loop of [simulate_data_upload]: one measurement. *)
Definition simulate_measurement : M pyval :=
  parameter <- choice (str "pH") WATER_PARAMETERS ;;
  vu <-
    (if pystr_eqb parameter (str "pH") then
       value <- round_uniform 600 900 2 ;; ret (PyFloat value, str "pH")
     else if pystr_eqb parameter (str "Temperatura") then
       value <- round_uniform 150 300 1 ;; ret (PyFloat value, str "°C")
     else if pystr_eqb parameter (str "Turbidez") then
       value <- round_uniform 50 1500 2 ;; ret (PyFloat value, str "NTU")
     else if pystr_eqb parameter (str "Oxígeno disuelto") then
       value <- round_uniform 200 1200 2 ;; ret (PyFloat value, str "mg/L")
     else if pystr_eqb parameter (str "Coliformes totales")
             || pystr_eqb parameter (str "E. coli") then
       value <- randint 0 5000 ;;
       ret (PyInt (Z.of_N value), str "UFC/100mL")
     else
       value <- round_uniform 10 10000 2 ;;
       ret (PyFloat value, str "mg/L")) ;;
  threshold_exceeded <- random_below_one_fifth ;;
  ret (PyDict [(str "parameter", PyStr parameter);
               (str "value", fst vu);
               (str "unit", PyStr (snd vu));
               (str "threshold_exceeded", PyBool threshold_exceeded)]).

(** [simulate_data_upload] *)
Definition simulate_data_upload : M pyval :=
  batch_id <- uuid4 ;;
  location <- choice (str "Río Principal - Estación Norte")
                SAMPLE_LOCATIONS ;;
  entity <- choice (str "Secretaría de Medio Ambiente")
              REPORTING_ENTITIES ;;
  num_measurements <- randint 3 10 ;;
  timestamp <- now_isoformat ;;
  measurements <-
    map_m (fun _ => simulate_measurement)
          (seq 0 (N.to_nat num_measurements)) ;;
  device <- randint 1000 9999 ;;
  upload_method <- choice (str "API")
                     [str "API"; str "Desktop App"; str "Field Device"] ;;
  let data :=
    PyDict [(str "batch_id", PyStr batch_id);
            (str "timestamp", PyStr timestamp);
            (str "location", PyStr location);
            (str "reporting_entity", PyStr entity);
            (str "measurements", PyList measurements);
            (str "metadata",
             PyDict [(str "device_id",
                      PyStr (str "SENSOR-" ++ Json.N_repr device));
                     (str "upload_method", PyStr upload_method);
                     (str "comments",
                      PyStr (str "Datos simulados para prueba de concepto"))])]
  in
  log INFO (LogSimulated batch_id location) ;;
  ret data.

(** The attribute access [rmq_connection.channel.basic_publish]: there
    is no such attribute on [None]. *)
Definition the_channel : M unit :=
  w <- get ;;
  match channel (w_rmq w) with
  | Some _ => ret tt
  | None => raise AttributeError
  end.

(** The [notification] of [publish_notification]. *)
Definition notification (timestamp : pystr) (data : pyval) : pyval :=
  PyDict [(str "event_type", PyStr (str "data_upload"));
          (str "timestamp", PyStr timestamp);
          (str "data", data)].

(** The call [publish_notification] publishes a payload with. *)
Definition publish_call (payload : pybytes) : pika_call :=
  BasicPublish EXCHANGE_NAME ROUTING_KEY payload 2
    (str "application/json").

(** [publish_notification] *)
Definition publish_notification (data : pyval) : M bool :=
  try_except
    (timestamp <- now_isoformat ;;
     message_body <- serialize_message (notification timestamp data) ;;
     the_channel ;;
     pika (publish_call message_body) ;;
     batch_id <- lift (getitem data (str "batch_id")) ;;
     log INFO (LogPublished batch_id) ;;
     ret true)
    ClsException
    (fun e => log ERROR (LogPublishError e) ;; ret false).

(** The [while True] loop of [main]: [rounds] rounds complete, the
    operator's interrupt arrives in the [time.sleep] of the next one. *)
Fixpoint publish_loop (rounds : nat) : M unit :=
  data <- simulate_data_upload ;;
  publish_notification data ;;
  match rounds with
  | O => raise KeyboardInterrupt
  | S rounds' => publish_loop rounds'
  end.

(** [main], after the command line has been read. *)
Definition main (interval : N) : M unit :=
  try_finally
    (try_except
       (connected <- connect ;;
        if negb connected then log ERROR LogCannotConnect
        else
          log INFO (LogSimulationStarted interval) ;;
          w <- get ;;
          publish_loop (env_rounds (w_env w)))
       ClsKeyboardInterrupt
       (fun _ => log INFO LogSimulationInterrupted))
    close.

End DataPublisher.

(* --------------------------------------------------------------------- *)
(** ** [admin_consumer.py]                                                *)
(* --------------------------------------------------------------------- *)

Module AdminConsumer.

(** [ConsoleNotifier.print_header] *)
Definition print_header : M unit :=
  w <- get ;;
  print (OutHeader (w_notification_count w)).

(** The body of the loop over the measurements: line [i]. *)
Definition display_measurement (im : N * pyval) : M unit :=
  let (i, measurement) := im in
  param <- lift (getitem measurement (str "parameter")) ;;
  value <- lift (getitem measurement (str "value")) ;;
  unit <- lift (getitem measurement (str "unit")) ;;
  exceeded <- lift (getitem measurement (str "threshold_exceeded")) ;;
  print (OutMeasurement i param value unit (truthy exceeded)).

(** [enumerate(xs, start)] *)
Fixpoint enumerate {A} (xs : list A) (start : N) : list (N * A) :=
  match xs with
  | [] => []
  | x :: xs' => (start, x) :: enumerate xs' (N.succ start)
  end.

(** [[m for m in measurements if m['threshold_exceeded']]] *)
Fixpoint select_alerts (ms : list pyval) : result (list pyval) :=
  match ms with
  | [] => Return []
  | m :: ms' =>
      rbind (getitem m (str "threshold_exceeded")) (fun exceeded =>
      rbind (select_alerts ms') (fun rest =>
      Return (if truthy exceeded then m :: rest else rest)))
  end.

(** [ConsoleNotifier.display_notification] *)
Definition display_notification (data : pyval) : M unit :=
  w <- get ;;
  set_notification_count (w_notification_count w + 1) ;;
  print_header ;;
  batch_id <- lift (rbind (getitem data (str "data")) (fun d =>
                    getitem d (str "batch_id"))) ;;
  timestamp <- lift (rbind (getitem data (str "data")) (fun d =>
                     getitem d (str "timestamp"))) ;;
  location <- lift (rbind (getitem data (str "data")) (fun d =>
                    getitem d (str "location"))) ;;
  entity <- lift (rbind (getitem data (str "data")) (fun d =>
                  getitem d (str "reporting_entity"))) ;;
  measurements <- lift (rbind (getitem data (str "data")) (fun d =>
                        getitem d (str "measurements"))) ;;
  print OutTitle ;;
  print (OutField (str "ID del lote") batch_id) ;;
  print (OutField (str "Fecha y hora") timestamp) ;;
  print (OutField (str "Ubicación") location) ;;
  print (OutField (str "Entidad informante") entity) ;;
  print OutMeasurementsHeading ;;
  items <- lift (iterate measurements) ;;
  for_each (enumerate items 1) display_measurement ;;
  alerts <- lift (rbind (iterate measurements) select_alerts) ;;
  match alerts with
  | [] => ret tt
  | _ :: _ =>
      print (OutAlert (N.of_nat (length alerts))) ;;
      print OutReviewRequired
  end ;;
  print OutFooter.

(** The count the alert banner shows; no banner, no alert. *)
Fixpoint alert_banner (out : list out_line) : option N :=
  match out with
  | [] => None
  | OutAlert n :: _ => Some n
  | _ :: out' => alert_banner out'
  end.

Definition rendered_alert_count (out : list out_line) : N :=
  match alert_banner out with Some n => n | None => 0 end.



Definition exceeded (ms : list Measurement) : list Measurement :=
  filter threshold_exceeded ms.



(** The keys [display_notification] reads in [data['data']], in the
    order it reads them. *)
Definition required_fields : list pystr :=
  [str "batch_id"; str "timestamp"; str "location";
   str "reporting_entity"; str "measurements"].

(** The first key [display_notification] does not find in a decoded
    record, if it is a [dict] whose [data], when present, is a [dict]. *)
Definition missing_key (data : pyval) : option pystr :=
  match data with
  | PyDict d =>
      match dict_get d (str "data") with
      | None => Some (str "data")
      | Some (PyDict dd) =>
          find (fun k => match dict_get dd k with
                         | None => true
                         | Some _ => false
                         end) required_fields
      | Some _ => None
      end
  | _ => None
  end.

(** [process_message]: the callback registered with the channel; [ch] is
    the one channel of the process, [method.delivery_tag] is given. *)
Definition process_message (delivery_tag : N) (body : pybytes) : M unit :=
  data <- deserialize_message body ;;
  log DEBUG (LogReceived data) ;;
  display_notification data ;;
  pika (BasicAck delivery_tag).

(** The attribute access [rmq_connection.channel.<method>]. *)
Definition the_channel : M unit :=
  w <- get ;;
  match channel (w_rmq w) with
  | Some _ => ret tt
  | None => raise AttributeError
  end.


(** [setup_consumer] *)
Definition setup_consumer : M unit :=
  the_channel ;;
  pika (QueueDeclare QUEUE_NAME true) ;;
  pika (QueueBind EXCHANGE_NAME QUEUE_NAME ROUTING_KEY) ;;
  set_notification_count 0 ;;
  print_header ;;
  pika (BasicQos 1) ;;
  pika (BasicConsume QUEUE_NAME).

(** [channel.start_consuming()]: the registered callback runs on every
    delivery, one after the other; an exception of the callback leaves
    the loop. *)
Definition start_consuming : M unit :=
  pika StartConsuming ;;
  w <- get ;;
  for_each (env_deliveries (w_env w))
           (fun d => process_message (fst d) (snd d)).

(** [if rmq_connection.channel and rmq_connection.channel.is_open:
    rmq_connection.channel.stop_consuming()] *)
Definition stop_if_open : M unit :=
  w <- get ;;
  match channel (w_rmq w) with
  | Some true => pika StopConsuming
  | _ => ret tt
  end.

(** [consume_messages], the body of the consumer thread. *)
Definition consume_messages : M unit :=
  try_finally
    (try_except
       (log INFO LogStartConsuming ;; start_consuming)
       ClsException
       (fun e => log ERROR (LogConsumeError e)))
    stop_if_open.

(** [main], after the command line has been read.  The consumer thread
    is run to the end of the deliveries of the environment, then the
    shutdown flag is seen set. *)
Definition main : M unit :=
  try_finally
    (try_except
       (connected <- connect ;;
        if negb connected then log ERROR LogCannotConnect
        else
          setup_consumer ;;
          run_thread consume_messages)
       ClsException
       (fun e => log ERROR (LogConsumerError e)))
    (stop_if_open ;; close ;; log INFO LogConsumerDone).

End AdminConsumer.

(* --------------------------------------------------------------------- *)
(** ** The broker, as far as the consumer sees it                         *)
(* --------------------------------------------------------------------- *)

Module Broker.











End Broker.

(* --------------------------------------------------------------------- *)
(** ** Sample inputs                                                      *)
(* --------------------------------------------------------------------- *)

Module Examples.

(** A broker that accepts everything. *)
Definition env_ok : environment :=
  {| env_pika := fun _ _ => None;
     env_random := fun n => 7 * N.of_nat n + 3;
     env_uuid4 := fun _ => str "0b6f1c1e-8d43-4c55-9a51-3f0d8f2f7c10";
     env_now := fun _ => str "2024-05-17T09:30:00.123456";
     env_deliveries := [];
     env_rounds := 0 |}.

(** A broker that rejects the credentials. *)
Definition env_rejecting : environment :=
  {| env_pika := fun _ c =>
                   match c with
                   | BlockingConnection _ _ _ _ _ _ =>
                       Some ProbableAuthenticationError
                   | _ => None
                   end;
     env_random := fun n => 7 * N.of_nat n + 3;
     env_uuid4 := fun _ => str "0b6f1c1e-8d43-4c55-9a51-3f0d8f2f7c10";
     env_now := fun _ => str "2024-05-17T09:30:00.123456";
     env_deliveries := [];
     env_rounds := 0 |}.

(** A broker that refuses every publish. *)
Definition env_refusing_publish : environment :=
  {| env_pika := fun _ c =>
                   match c with
                   | BasicPublish _ _ _ _ _ => Some AMQPChannelError
                   | _ => None
                   end;
     env_random := fun n => 7 * N.of_nat n + 3;
     env_uuid4 := fun _ => str "0b6f1c1e-8d43-4c55-9a51-3f0d8f2f7c10";
     env_now := fun _ => str "2024-05-17T09:30:00.123456";
     env_deliveries := [];
     env_rounds := 0 |}.

Definition world_of (env : environment) : world :=
  initial_world env (str "localhost") 5672 (str "guest") (str "guest").

(** The same process once [connect] has returned [True]. *)
Definition connected (env : environment) : world :=
  snd (connect (world_of env)).

Definition measurement_ok : Measurement :=
  {| parameter := str "pH"; value := FloatValue (Finite false 7 [2; 5]);
     unit_label := str "pH"; threshold_exceeded := false |}.

Definition measurement_alert : Measurement :=
  {| parameter := str "E. coli"; value := IntValue 4200;
     unit_label := str "UFC/100mL"; threshold_exceeded := true |}.

Definition upload (ms : list Measurement) : UploadRecord :=
  {| batch_id := str "0b6f1c1e-8d43-4c55-9a51-3f0d8f2f7c10";
     timestamp := str "2024-05-17T09:29:58.000321";
     location := str "Río Principal - Estación Norte";
     reporting_entity := str "ONG EcoAgua";
     measurements := ms;
     metadata :=
       [(str "device_id", PyStr (str "SENSOR-4711"));
        (str "upload_method", PyStr (str "API"));
        (str "comments",
         PyStr (str "Datos simulados para prueba de concepto"))] |}.

(** Scenario A: one measurement, within its threshold. *)
Definition envelope_a : Envelope :=
  wrap (str "2024-05-17T09:30:00.123456") (upload [measurement_ok]).

(** Scenario B: two measurements, one beyond its threshold. *)
Definition envelope_b : Envelope :=
  wrap (str "2024-05-17T09:30:00.123456")
       (upload [measurement_ok; measurement_alert]).

(** Payloads no record can be decoded from. *)
Definition body_not_json : pybytes :=
  list_byte_of_string "not json".

Definition body_not_utf8 : pybytes := [Byte.xff; Byte.xfe].

(** What the codec of the publisher sends for a value. *)
Definition payload_of (v : pyval) : pybytes :=
  match dumps_utf8 v with Return b => b | Raise _ => [] end.

(** A record without [data], and one whose [data] lacks fields. *)
Definition body_without_data : pybytes :=
  payload_of (PyDict [(str "event_type", PyStr (str "data_upload"))]).

Definition body_partial_data : pybytes :=
  payload_of
    (PyDict [(str "event_type", PyStr (str "data_upload"));
             (str "data", PyDict [(str "batch_id", PyStr (str "b-1"))])]).

End Examples.

(* --------------------------------------------------------------------- *)
(** ** Observations on runs                                               *)
(* --------------------------------------------------------------------- *)

Module Behaviour.

(** Computations that leave an observation [f] of the state as it is. *)
Definition keeps {A X} (f : world -> X) (m : M A) : Prop :=
  forall w, f (snd (m w)) = f w.

(** A broker, and a client library, that raise nothing. *)
Definition accepting (env : environment) : Prop :=
  forall history call, env_pika env history call = None.

(** The calls [connect] makes when nothing fails. *)
Definition connect_calls (r : RabbitMQConnection) : list pika_call :=
  [connection_call r; Channel;
   ExchangeDeclare (str "observatorio_events") (str "topic") true].

Definition is_dict (v : pyval) : bool :=
  match v with PyDict _ => true | _ => false end.

(** A decoded value [display_notification] cannot subscript with a key:
    it is not a [dict], or its [data] is not one. *)
Definition not_a_record (data : pyval) : Prop :=
  is_dict data = false
  \/ exists d v, data = PyDict d /\ dict_get d (str "data") = Some v
                 /\ is_dict v = false.





(** Computations that only print. *)
Definition prints_only {A} (m : M A) : Prop :=
  forall w, exists out, snd (m w) = add_stdout w out.

End Behaviour.

(* --------------------------------------------------------------------- *)
(** ** The simulated producer, field by field                             *)
(* --------------------------------------------------------------------- *)

Module Simulation.

(** The unit [simulate_data_upload] gives to each parameter of
    [WATER_PARAMETERS]. *)
Definition unit_of_parameter : list (pystr * pystr) :=
  [(str "pH", str "pH");
   (str "Turbidez", str "NTU");
   (str "Oxígeno disuelto", str "mg/L");
   (str "Conductividad", str "mg/L");
   (str "Coliformes totales", str "UFC/100mL");
   (str "E. coli", str "UFC/100mL");
   (str "Nitratos", str "mg/L");
   (str "Fosfatos", str "mg/L");
   (str "Temperatura", str "°C");
   (str "Sólidos suspendidos", str "mg/L")].

(** The parameters that are counts of bacteria. *)
Definition counted (parameter : pystr) : Prop :=
  parameter = str "Coliformes totales" \/ parameter = str "E. coli".

(** What holds of every simulated measurement. *)
Definition as_simulated (m : Measurement) : Prop :=
  In (parameter m, unit_label m) unit_of_parameter
  /\ match value m with
     | IntValue z => counted (parameter m) /\ (0 <= z <= 5000)%Z
     | FloatValue f =>
         ~ counted (parameter m)
         /\ exists i frac, f = Finite false i frac /\ i <= 100
     end.

(** The [metadata] of a simulated record, [n] the number of the
    device. *)
Definition simulated_metadata (n : N) (upload_method : pystr)
  : list (pystr * pyval) :=
  [(str "device_id", PyStr (str "SENSOR-" ++ Json.N_repr n));
   (str "upload_method", PyStr upload_method);
   (str "comments", PyStr (str "Datos simulados para prueba de concepto"))].

End Simulation.

(* --------------------------------------------------------------------- *)
(** ** More sample inputs                                                 *)
(* --------------------------------------------------------------------- *)

Module Samples.
Import Examples.

(** A client library that fails on the parameters of the connection,
    with an exception that is no [AMQPConnectionError]. *)
Definition env_bad_parameters : environment :=
  {| env_pika := fun _ c =>
                   match c with
                   | BlockingConnection _ _ _ _ _ _ => Some ValueError
                   | _ => None
                   end;
     env_random := fun n => 7 * N.of_nat n + 3;
     env_uuid4 := fun _ => str "0b6f1c1e-8d43-4c55-9a51-3f0d8f2f7c10";
     env_now := fun _ => str "2024-05-17T09:30:00.123456";
     env_deliveries := [];
     env_rounds := 0 |}.

(** A broker that accepts everything and delivers [deliveries]; the
    publisher is interrupted in its third round. *)
Definition env_delivering (deliveries : list (N * pybytes)) : environment :=
  {| env_pika := fun _ _ => None;
     env_random := fun n => 7 * N.of_nat n + 3;
     env_uuid4 := fun _ => str "0b6f1c1e-8d43-4c55-9a51-3f0d8f2f7c10";
     env_now := fun _ => str "2024-05-17T09:30:00.123456";
     env_deliveries := deliveries;
     env_rounds := 2 |}.




(** A record without [batch_id]. *)
Definition upload_without_batch_id : pyval :=
  PyDict [(str "location", PyStr (str "Laguna Central"));
          (str "measurements", PyList [])].

(** A record [json] cannot encode: its timestamp is a [datetime]. *)
Definition upload_with_datetime : pyval :=
  PyDict [(str "batch_id", PyStr (str "b-1"));
          (str "timestamp",
           PyObject (str "datetime.datetime(2024, 5, 17, 9, 30)"))].

(** JSON that is no record: a list, and an envelope whose [data] is
    text. *)
Definition body_list : pybytes :=
  payload_of (PyList [PyInt 1; PyInt 2]).

Definition body_text_data : pybytes :=
  payload_of (PyDict [(str "event_type", PyStr (str "data_upload"));
                      (str "data", PyStr (str "pH 7.25"))]).

End Samples.

(* ===================================================================== *)
(** * Part II: lemmas and theorems                                         *)
(* ===================================================================== *)

Unset Implicit Arguments.

(* --------------------------------------------------------------------- *)
(** ** [json.loads] reads back what [json.dumps] writes                   *)
(* --------------------------------------------------------------------- *)

Module JsonFacts.
Import Json.








Lemma valid_cp_spec c :
  valid_cp c = true <-> c < 0xD800 \/ (0xE000 <= c /\ c <= 0x10FFFF).
Proof.
  unfold valid_cp.
  rewrite orb_true_iff, andb_true_iff, N.ltb_lt, !N.leb_le. tauto.
Qed.








(** *** Numbers *)





Lemma uint_chars_digits u :
  Forall (fun c => is_digit c = true) (uint_chars u).
Proof. induction u; cbn [uint_chars]; constructor; auto. Qed.



Lemma N_repr_digits n : Forall (fun c => is_digit c = true) (N_repr n).
Proof. apply uint_chars_digits. Qed.
















(** *** Containers *)










Section Loops.

Variable scan : pystr -> option (pyval * pystr).













End Loops.

(** *** Values *)








(** *** The text of the encoder is ASCII *)







Lemma digits_ascii ds :
  Forall (fun c => is_digit c = true) ds -> ascii_text ds.
Proof.
  intros D. eapply Forall_impl; [|exact D].
  intros c H. unfold is_digit in H. apply andb_true_iff in H.
  rewrite !N.leb_le in H. lia.
Qed.

Lemma N_repr_ascii n : ascii_text (N_repr n).
Proof. apply digits_ascii, N_repr_digits. Qed.




End JsonFacts.

(* --------------------------------------------------------------------- *)
(** ** UTF-8 on ASCII text                                                *)
(* --------------------------------------------------------------------- *)

Module Utf8Facts.
Import Json Utf8 JsonFacts.




End Utf8Facts.

(* --------------------------------------------------------------------- *)
(** ** The codec of [rabbitmq_utils.py]                                    *)
(* --------------------------------------------------------------------- *)

Module CodecFacts.
Import Json JsonFacts Utf8Facts.






End CodecFacts.

(** What the codec does when encoding or decoding raises. *)

Module CodecErrors.
Import Json JsonFacts Utf8Facts CodecFacts.

Lemma sequence_Raise {A} (rs : list (result A)) e :
  sequence rs = Raise e -> exists r, In r rs /\ r = Raise e.
Proof.
  induction rs as [|r rs IH]; [discriminate|].
  cbn [sequence fold_right]. fold (sequence rs).
  destruct r as [a|e']; cbn [rbind].
  - destruct (sequence rs) as [ts|e'']; cbn [rbind]; [discriminate|].
    intros H. injection H as ->.
    destruct (IH eq_refl) as (r & Hin & ->).
    exists (Raise e). split; [right; assumption|reflexivity].
  - intros H. injection H as ->. exists (Raise e).
    split; [left|]; reflexivity.
Qed.

(** [json.dumps] fails with [TypeError] only. *)
Lemma dumps_raises v : forall e, dumps v = Raise e -> e = TypeError.
Proof.
  induction v as [|b|z|f|s|l IH|d IH|n] using pyval_nested_ind;
    intros e E; try discriminate E.
  - destruct b; discriminate E.
  - cbn [dumps] in E.
    destruct (sequence (map dumps l)) as [items|e'] eqn:Q;
      cbn [rbind] in E; [discriminate E|]. injection E as ->.
    apply sequence_Raise in Q. destruct Q as (r & Hin & ->).
    apply in_map_iff in Hin. destruct Hin as (x & Ex & Hin).
    rewrite Forall_forall in IH. eapply IH; eassumption.
  - cbn [dumps] in E.
    match type of E with
    | rbind (sequence ?x) _ = _ =>
        destruct (sequence x) as [items|e'] eqn:Q
    end; cbn [rbind] in E; [discriminate E|]. injection E as ->.
    apply sequence_Raise in Q. destruct Q as (r & Hin & ->).
    apply in_map_iff in Hin. destruct Hin as (x & Ex & Hin).
    rewrite Forall_forall in IH.
    destruct (dumps (snd x)) as [t|e'] eqn:Dx; cbn [rbind] in Ex;
      [discriminate Ex|]. injection Ex as ->.
    eapply (IH x); eassumption.
  - cbn [dumps] in E. congruence.
Qed.

Lemma encode_raises s e : Utf8.encode s = Raise e -> e = UnicodeEncodeError.
Proof.
  induction s as [|c s IH]; [discriminate|].
  cbn [Utf8.encode]. destruct (Utf8.encode_cp c); [|congruence].
  destruct (Utf8.encode s); cbn [rbind]; [discriminate|].
  intros H. injection H as ->. now apply IH.
Qed.

Lemma loads_raises s e : loads s = Raise e -> e = JSONDecodeError.
Proof.
  unfold loads.
  assert (G : match scan_once (S (length s)) (skip_ws s) with
              | Some (obj, r) =>
                  match skip_ws r with
                  | [] => Return obj
                  | _ :: _ => Raise JSONDecodeError
                  end
              | None => Raise JSONDecodeError
              end = Raise e -> e = JSONDecodeError).
  { destruct (scan_once _ _) as [[obj r]|]; [|congruence].
    destruct (skip_ws r); congruence. }
  destruct s as [|c s]; [exact G|].
  destruct c as [|p]; [exact G|].
  do 16 (destruct p as [p|p|]; try exact G).
  all: intros H; injection H as <-; reflexivity.
Qed.

(** What escapes [json.dumps(data).encode('utf-8')] is an
    [Exception]. *)
Lemma dumps_utf8_raises data e :
  dumps_utf8 data = Raise e -> isinstance e ClsException = true.
Proof.
  unfold dumps_utf8. destruct (dumps data) as [t|e'] eqn:D; cbn [rbind].
  - intros H. apply encode_raises in H. subst. reflexivity.
  - intros H. injection H as ->. apply dumps_raises in D. subst.
    reflexivity.
Qed.

(** What escapes [json.loads(body.decode('utf-8'))] is an
    [Exception]. *)
Lemma loads_utf8_raises body e :
  loads_utf8 body = Raise e -> isinstance e ClsException = true.
Proof.
  unfold loads_utf8, Utf8.decode.
  destruct (Utf8.decode_N _) as [t|]; cbn [of_option rbind].
  - intros H. apply loads_raises in H. subst. reflexivity.
  - intros H. injection H as <-. reflexivity.
Qed.

Lemma marker_payload :
  exists payload, dumps_utf8 serialization_error_marker = Return payload.
Proof. eexists. vm_compute. reflexivity. Qed.

Lemma deserialize_message_cases body w :
  (exists v, loads_utf8 body = Return v
             /\ deserialize_message body w = (Return v, w))
  \/ (exists e, loads_utf8 body = Raise e
                /\ deserialize_message body w
                   = (Return deserialization_error_marker,
                      add_log w [(ERROR, LogDeserializeError e)])).
Proof.
  unfold deserialize_message, try_except, lift.
  destruct (loads_utf8 body) as [v|e] eqn:L.
  - left. exists v. split; reflexivity.
  - right. exists e. rewrite (loads_utf8_raises _ _ L).
    split; reflexivity.
Qed.

Lemma serialize_message_cases data w :
  (exists payload, dumps_utf8 data = Return payload
                   /\ serialize_message data w = (Return payload, w))
  \/ (exists e payload,
         dumps_utf8 data = Raise e
         /\ dumps_utf8 serialization_error_marker = Return payload
         /\ serialize_message data w
            = (Return payload, add_log w [(ERROR, LogSerializeError e)])).
Proof.
  unfold serialize_message, try_except, lift.
  destruct (dumps_utf8 data) as [p|e] eqn:D.
  - left. exists p. split; reflexivity.
  - right. destruct marker_payload as [p M].
    exists e, p. rewrite (dumps_utf8_raises _ _ D).
    unfold bind, log. rewrite M. repeat split; reflexivity.
Qed.

Lemma deserialize_message_returns body w :
  exists data w1, deserialize_message body w = (Return data, w1).
Proof.
  destruct (deserialize_message_cases body w)
    as [(v & _ & E)|(e & _ & E)]; rewrite E; eauto.
Qed.
End CodecErrors.


(** C3. The codec is total.  [deserialize_message] returns on every byte
    string: the decoded value, or, when decoding raises, the error marker
    (after an error line in the log).  [serialize_message] returns on every
    value: its payload, or, when encoding raises, the payload of the error
    marker (after an error line in the log).  Neither raises. *)
Theorem codec_total :
  (forall body w,
      (exists v, loads_utf8 body = Return v
                 /\ deserialize_message body w = (Return v, w))
      \/ (exists e, loads_utf8 body = Raise e
                    /\ deserialize_message body w
                       = (Return deserialization_error_marker,
                          add_log w [(ERROR, LogDeserializeError e)])))
  /\ (forall data w,
      (exists payload, dumps_utf8 data = Return payload
                       /\ serialize_message data w = (Return payload, w))
      \/ (exists e payload,
             dumps_utf8 data = Raise e
             /\ dumps_utf8 serialization_error_marker = Return payload
             /\ serialize_message data w
                = (Return payload,
                   add_log w [(ERROR, LogSerializeError e)]))).
Proof.
  split.
  - apply CodecErrors.deserialize_message_cases.
  - apply CodecErrors.serialize_message_cases.
Qed.

(* --------------------------------------------------------------------- *)
(** ** The consumer                                                       *)
(* --------------------------------------------------------------------- *)

Module RuntimeFacts.

Lemma silent_ret {A} (a : A) : silent (ret a).
Proof. intros w. reflexivity. Qed.

Lemma silent_lift {A} (r : result A) : silent (lift r).
Proof. intros w. reflexivity. Qed.

Lemma silent_get : silent get.
Proof. intros w. reflexivity. Qed.

Lemma silent_log l m : silent (log l m).
Proof. intros w. reflexivity. Qed.

Lemma silent_print o : silent (print o).
Proof. intros w. reflexivity. Qed.

Lemma silent_set_notification_count n : silent (set_notification_count n).
Proof. intros w. reflexivity. Qed.

Lemma silent_bind {A B} (m : M A) (k : A -> M B) :
  silent m -> (forall a, silent (k a)) -> silent (bind m k).
Proof.
  intros Hm Hk w. unfold bind. specialize (Hm w).
  destruct (m w) as [[a|e] w1]; cbn [snd] in *.
  - rewrite Hk. exact Hm.
  - exact Hm.
Qed.

Lemma silent_try_except {A} (m : M A) cls h :
  silent m -> (forall e, silent (h e)) -> silent (try_except m cls h).
Proof.
  intros Hm Hh w. unfold try_except. specialize (Hm w).
  destruct (m w) as [[a|e] w1]; cbn [snd] in *; [exact Hm|].
  destruct (isinstance e cls); [|exact Hm].
  rewrite Hh. exact Hm.
Qed.

Lemma silent_for_each {A} (xs : list A) (body : A -> M unit) :
  (forall x, silent (body x)) -> silent (for_each xs body).
Proof.
  intros Hb. induction xs as [|x xs IH]; cbn [for_each].
  - apply silent_ret.
  - apply silent_bind; [apply Hb|intros _; exact IH].
Qed.

End RuntimeFacts.

Module ConsumerFacts.
Import AdminConsumer RuntimeFacts.

Create HintDb silent.

#[local] Hint Resolve silent_ret silent_lift silent_get silent_log
  silent_print silent_set_notification_count : silent.

Ltac silent :=
  repeat first
    [ apply silent_bind; [|intros ?]
    | apply silent_for_each; intros ?
    | apply silent_try_except; [|intros ?]
    | solve [auto with silent] ].

Lemma silent_display_measurement im : silent (display_measurement im).
Proof. destruct im as [i m]. unfold display_measurement. silent. Qed.

(** The handler makes no call to the broker. *)
Lemma silent_display_notification data :
  silent (display_notification data).
Proof.
  unfold display_notification, print_header. silent.
  - apply silent_display_measurement.
  - match goal with |- silent (match ?a with _ => _ end) => destruct a end;
      silent.
Qed.

Lemma silent_deserialize_message body : silent (deserialize_message body).
Proof. unfold deserialize_message. silent. Qed.


Lemma process_message_cases tag body w :
  exists data w1,
    deserialize_message body w = (Return data, w1)
    /\ w_calls w1 = w_calls w
    /\ let w2 := add_log w1 [(DEBUG, LogReceived data)] in
       match display_notification data w2 with
       | (Return _, w3) =>
           process_message tag body w = pika (BasicAck tag) w3
           /\ w_calls w3 = w_calls w
       | (Raise e, w3) =>
           process_message tag body w = (Raise e, w3)
           /\ w_calls w3 = w_calls w
       end.
Proof.
  destruct (CodecErrors.deserialize_message_returns body w)
    as (data & w1 & E).
  pose proof (silent_deserialize_message body w) as S1.
  rewrite E in S1. cbn [snd] in S1.
  exists data, w1. split; [exact E|]. split; [exact S1|].
  cbv zeta.
  pose proof (silent_display_notification data
                (add_log w1 [(DEBUG, LogReceived data)])) as S2.
  unfold process_message, bind. rewrite E. unfold log.
  destruct (display_notification data _) as [[[]|e] w3];
    cbn [snd add_log w_calls] in S2;
    (split; [reflexivity|congruence]).
Qed.

Lemma calls_after_pika c w : w_calls (snd (pika c w)) = w_calls w ++ [c].
Proof. unfold pika. destruct (env_pika _ _ _); reflexivity. Qed.

(** A record that lacks a key the handler reads makes it raise. *)
Lemma display_notification_missing data k w :
  missing_key data = Some k ->
  exists w', display_notification data w = (Raise (KeyError k), w').
Proof.
  unfold missing_key. destruct data as [| | | | | |d|]; try discriminate.
  unfold display_notification, print_header, bind, get,
    set_notification_count, print, lift.
  cbn [getitem].
  destruct (dict_get d (str "data")) as [dd|] eqn:D.
  - destruct dd as [| | | | | |dd|]; try discriminate.
    unfold required_fields. cbn [find of_option rbind getitem].
    destruct (dict_get dd (str "batch_id")) eqn:F1;
      [|intros H; injection H as <-; eexists; reflexivity].
    destruct (dict_get dd (str "timestamp")) eqn:F2;
      [|intros H; injection H as <-; eexists; reflexivity].
    destruct (dict_get dd (str "location")) eqn:F3;
      [|intros H; injection H as <-; eexists; reflexivity].
    destruct (dict_get dd (str "reporting_entity")) eqn:F4;
      [|intros H; injection H as <-; eexists; reflexivity].
    destruct (dict_get dd (str "measurements")) eqn:F5;
      [|intros H; injection H as <-; eexists; reflexivity].
    discriminate.
  - intros H. injection H as <-. eexists. reflexivity.
Qed.

(** *** What the handler prints for an envelope of the data model *)

Lemma bind_get {B} (k : world -> M B) w : bind get k w = k w w.
Proof. reflexivity. Qed.


Lemma bind_lift {A B} (r : result A) (k : A -> M B) w :
  bind (lift r) k w
  = match r with Return a => k a w | Raise e => (Raise e, w) end.
Proof. unfold bind, lift. destruct r; reflexivity. Qed.


Lemma bind_set_notification_count {B} n (k : unit -> M B) w :
  bind (set_notification_count n) k w
  = k tt (with_notification_count w n).
Proof. reflexivity. Qed.

Lemma bind_print_header {B} (k : unit -> M B) w :
  bind print_header k w
  = k tt (add_stdout w [OutHeader (w_notification_count w)]).
Proof. reflexivity. Qed.

Lemma bind_Return {A B} (m : M A) (k : A -> M B) w a w' :
  m w = (Return a, w') -> bind m k w = k a w'.
Proof. intros H. unfold bind. rewrite H. reflexivity. Qed.

Lemma bind_assoc {A B C} (m : M A) (k : A -> M B) (h : B -> M C) w :
  bind (bind m k) h w = bind m (fun a => bind (k a) h) w.
Proof.
  unfold bind. destruct (m w) as [[a|e] w1]; reflexivity.
Qed.

Lemma add_stdout_nil w : add_stdout w [] = w.
Proof. destruct w. unfold add_stdout. cbn. now rewrite app_nil_r. Qed.

Lemma add_stdout_add_stdout w a b :
  add_stdout (add_stdout w a) b = add_stdout w (a ++ b).
Proof. unfold add_stdout. cbn. now rewrite app_assoc. Qed.








End ConsumerFacts.

(** C2. Acknowledgment discipline of [process_message]: the payload is
    decoded first (this always returns a value), the handler
    [display_notification] is then run on the decoded value, and
    [basic_ack] is the one call made to the broker, made on the state the
    handler leaves when it returns; when the handler raises, the exception
    leaves [process_message] and no call has been made to the broker. *)
Theorem ack_only_after_handler (tag : N) (body : pybytes) (w : world) :
  exists data w1,
    deserialize_message body w = (Return data, w1)
    /\ let w2 := add_log w1 [(DEBUG, LogReceived data)] in
       match AdminConsumer.display_notification data w2 with
       | (Return _, w3) =>
           AdminConsumer.process_message tag body w = pika (BasicAck tag) w3
           /\ w_calls (snd (AdminConsumer.process_message tag body w))
              = w_calls w ++ [BasicAck tag]
       | (Raise e, w3) =>
           AdminConsumer.process_message tag body w = (Raise e, w3)
           /\ w_calls w3 = w_calls w
       end.
Proof.
  destruct (ConsumerFacts.process_message_cases tag body w)
    as (data & w1 & E & _ & H).
  exists data, w1. split; [exact E|]. cbv zeta in *.
  destruct (AdminConsumer.display_notification data _) as [[[]|e] w3].
  - destruct H as [H C]. split; [exact H|].
    rewrite H, ConsumerFacts.calls_after_pika, C. reflexivity.
  - exact H.
Qed.

(** C10. A payload that cannot be decoded is never acknowledged by the
    invocation that receives it: the marker record that stands for it has
    no [data] key, the handler raises [KeyError('data')], and
    [process_message] ends there without a call to the broker.  The same
    holds, with the key that is missing, for a decoded record that lacks
    [data], or whose [data] lacks one of the fields the handler reads. *)
Theorem undecodable_message_not_acked :
  (forall tag body w e,
      loads_utf8 body = Raise e ->
      exists w',
        AdminConsumer.process_message tag body w
        = (Raise (KeyError (str "data")), w')
        /\ w_calls w' = w_calls w)
  /\ (forall tag body w data k,
      loads_utf8 body = Return data ->
      AdminConsumer.missing_key data = Some k ->
      exists w',
        AdminConsumer.process_message tag body w = (Raise (KeyError k), w')
        /\ w_calls w' = w_calls w).
Proof.
  split.
  - intros tag body w e L.
    destruct (ConsumerFacts.process_message_cases tag body w)
      as (data & w1 & E & _ & H).
    destruct (CodecErrors.deserialize_message_cases body w)
      as [(v & L' & _)|(e' & _ & E')]; [congruence|].
    rewrite E' in E. injection E as <- <-. cbv zeta in H.
    destruct (ConsumerFacts.display_notification_missing
                deserialization_error_marker (str "data")
                (add_log (add_log w [(ERROR, LogDeserializeError e')])
                   [(DEBUG, LogReceived deserialization_error_marker)])
                eq_refl) as [w' D].
    rewrite D in H. exists w'. exact H.
  - intros tag body w data k L K.
    destruct (ConsumerFacts.process_message_cases tag body w)
      as (data' & w1 & E & _ & H).
    destruct (CodecErrors.deserialize_message_cases body w)
      as [(v & L' & E')|(e' & L' & _)]; [|congruence].
    rewrite E' in E. injection E as <- <-. cbv zeta in H.
    assert (v = data) by congruence. subst v.
    destruct (ConsumerFacts.display_notification_missing data k
                (add_log w [(DEBUG, LogReceived data)]) K) as [w' D].
    rewrite D in H. exists w'. exact H.
Qed.


(** Scenario A: one measurement within its threshold, no alert. *)
Example scenario_a :
  let w := Examples.connected Examples.env_ok in
  let w' := snd (AdminConsumer.display_notification
                   (envelope_to_py Examples.envelope_a) w) in
  AdminConsumer.rendered_alert_count (w_stdout w') = 0
  /\ AdminConsumer.alert_banner (w_stdout w') = None.
Proof. vm_compute. split; reflexivity. Qed.

(** Scenario B: two measurements, one beyond its threshold, one alert. *)
Example scenario_b :
  let w := Examples.connected Examples.env_ok in
  let w' := snd (AdminConsumer.display_notification
                   (envelope_to_py Examples.envelope_b) w) in
  AdminConsumer.rendered_alert_count (w_stdout w') = 1.
Proof. vm_compute. reflexivity. Qed.

(* --------------------------------------------------------------------- *)
(** ** The publisher                                                      *)
(* --------------------------------------------------------------------- *)

Module PublisherFacts.
Import DataPublisher RuntimeFacts.

(** [serialize_message] returns a payload and touches the log only. *)
Lemma serialize_message_frame data w :
  exists payload w1,
    serialize_message data w = (Return payload, w1)
    /\ (w1 = w \/ exists e, w1 = add_log w [(ERROR, LogSerializeError e)]).
Proof.
  destruct (CodecErrors.serialize_message_cases data w)
    as [(p & _ & E)|(e & p & _ & _ & E)]; rewrite E; eauto 6.
Qed.

(** [publish_notification], step by step. *)
Lemma publish_notification_cases data w :
  channel (w_rmq w) <> None ->
  exists payload w1,
    serialize_message (notification (env_now (w_env w) (w_clock w)) data)
      (tick w) = (Return payload, w1)
    /\ w_calls w1 = w_calls w
    /\ let w2 := add_calls w1 [publish_call payload] in
       publish_notification data w
       = match env_pika (w_env w) (w_calls w) (publish_call payload) with
         | Some e =>
             if isinstance e ClsException
             then (Return false, add_log w2 [(ERROR, LogPublishError e)])
             else (Raise e, w2)
         | None =>
             match getitem data (str "batch_id") with
             | Return batch_id =>
                 (Return true, add_log w2 [(INFO, LogPublished batch_id)])
             | Raise e =>
                 (Return false, add_log w2 [(ERROR, LogPublishError e)])
             end
         end.
Proof.
  intros C.
  destruct (serialize_message_frame
              (notification (env_now (w_env w) (w_clock w)) data) (tick w))
    as (payload & w1 & E & F).
  exists payload, w1. split; [exact E|].
  assert (G : w_calls w1 = w_calls w /\ w_env w1 = w_env w
              /\ channel (w_rmq w1) = channel (w_rmq w)).
  { destruct F as [->|[e ->]]; repeat split. }
  destruct G as (G1 & G2 & G3). split; [exact G1|]. cbv zeta.
  unfold publish_notification, try_except, bind, now_isoformat.
  rewrite E. unfold the_channel, bind, get. rewrite G3.
  destruct (channel (w_rmq w)) as [c|]; [|congruence].
  unfold ret, pika. rewrite G1, G2.
  destruct (env_pika (w_env w) (w_calls w) (publish_call payload)) as [e|].
  - unfold log, bind, ret. destruct (isinstance e ClsException); reflexivity.
  - unfold lift. destruct (getitem data (str "batch_id")) as [b|e] eqn:B.
    + reflexivity.
    + assert (I : isinstance e ClsException = true).
      { unfold getitem in B. destruct data; try (injection B as <-);
          try reflexivity.
        destruct (dict_get d (str "batch_id")); [discriminate|].
        injection B as <-. reflexivity. }
      rewrite I. reflexivity.
Qed.
End PublisherFacts.

(** C6. What every publish sends: with a channel at hand,
    [publish_notification] encodes the envelope with [serialize_message]
    and makes exactly one call to the broker, [basic_publish] of that
    payload to the exchange [observatorio_events] under the routing key
    [water.data.uploaded], with delivery mode 2 (persistent) and content
    type [application/json]. *)
Theorem publish_postcondition (data : pyval) (w : world) :
  channel (w_rmq w) <> None ->
  exists payload w1,
    serialize_message
      (DataPublisher.notification (env_now (w_env w) (w_clock w)) data)
      (tick w) = (Return payload, w1)
    /\ w_calls (snd (DataPublisher.publish_notification data w))
       = w_calls w
         ++ [BasicPublish (str "observatorio_events")
               (str "water.data.uploaded") payload 2
               (str "application/json")].
Proof.
  intros C.
  destruct (PublisherFacts.publish_notification_cases data w C)
    as (payload & w1 & E & G & H).
  exists payload, w1. split; [exact E|]. cbv zeta in H. rewrite H.
  change (BasicPublish _ _ payload 2 _)
    with (DataPublisher.publish_call payload).
  destruct (env_pika _ _ _) as [e|].
  - destruct (isinstance e ClsException); cbn; now rewrite G.
  - destruct (getitem data _); cbn; now rewrite G.
Qed.

(** C5. Error handling of a publish: with a channel at hand, whatever
    exception (of class [Exception]) the [basic_publish] call raises,
    [publish_notification] returns [False], after one error line in the
    log, and [basic_publish] has been called once only (no retry); when
    the call returns, [publish_notification] returns [True] after one
    information line that carries the [batch_id] of the data. *)
Theorem publish_error_handling (data : pyval) (w : world) :
  channel (w_rmq w) <> None ->
  exists payload w1,
    serialize_message
      (DataPublisher.notification (env_now (w_env w) (w_clock w)) data)
      (tick w) = (Return payload, w1)
    /\ w_calls w1 = w_calls w
    /\ let call := DataPublisher.publish_call payload in
       match env_pika (w_env w) (w_calls w) call with
       | Some e =>
           isinstance e ClsException = true ->
           DataPublisher.publish_notification data w
           = (Return false,
              add_log (add_calls w1 [call]) [(ERROR, LogPublishError e)])
       | None =>
           forall batch_id,
             getitem data (str "batch_id") = Return batch_id ->
             DataPublisher.publish_notification data w
             = (Return true,
                add_log (add_calls w1 [call]) [(INFO, LogPublished batch_id)])
       end.
Proof.
  intros C.
  destruct (PublisherFacts.publish_notification_cases data w C)
    as (payload & w1 & E & G & H).
  exists payload, w1. split; [exact E|]. split; [exact G|].
  cbv zeta in *. rewrite H.
  destruct (env_pika _ _ _) as [e|].
  - intros I. rewrite I. reflexivity.
  - intros b B. rewrite B. reflexivity.
Qed.

(* --------------------------------------------------------------------- *)
(** ** The simulated producer                                             *)
(* --------------------------------------------------------------------- *)

Module ProducerFacts.
Import DataPublisher.

Section Returns.

Variable I : world -> Prop.

(** [I] speaks of the environment only. *)
Hypothesis I_env : forall w w', w_env w' = w_env w -> I w -> I w'.

Lemma returns_ret {A} (P : A -> Prop) a : P a -> returns I P (ret a).
Proof. intros H w Hw. exists a, w. repeat split; assumption. Qed.

Lemma returns_bind {A B} (P : A -> Prop) (Q : B -> Prop) m k :
  returns I P m -> (forall a, P a -> returns I Q (k a)) ->
  returns I Q (bind m k).
Proof.
  intros Hm Hk w Hw. destruct (Hm w Hw) as (a & w1 & E & Pa & I1).
  destruct (Hk a Pa w1 I1) as (b & w2 & E2 & Qb & I2).
  exists b, w2. unfold bind. rewrite E. repeat split; assumption.
Qed.

Lemma returns_draw : returns I (fun _ => True) draw.
Proof.
  intros w Hw. eexists _, _. split; [reflexivity|]. split; [exact Logic.I|].
  now apply (I_env w).
Qed.

Lemma returns_log l m : returns I (fun _ => True) (log l m).
Proof.
  intros w Hw. eexists _, _. split; [reflexivity|]. split; [exact Logic.I|].
  now apply (I_env w).
Qed.

(** [randint(a, b)] is between its bounds. *)
Lemma returns_randint a b :
  a <= b -> returns I (fun n => a <= n /\ n <= b) (randint a b).
Proof.
  intros H. unfold randint.
  eapply returns_bind; [apply returns_draw|]. intros r _.
  apply returns_ret.
  pose proof (N.mod_upper_bound r (b - a + 1) ltac:(lia)) as U.
  revert U. generalize (r mod (b - a + 1)). intros x U. lia.
Qed.

(** [choice(seq)] is an element of [seq]. *)
Lemma returns_choice {A} (P : A -> Prop) (d : A) seq :
  P d -> Forall P seq -> returns I P (choice d seq).
Proof.
  intros Pd F. unfold choice.
  eapply returns_bind; [apply returns_draw|]. intros r _.
  apply returns_ret.
  generalize (N.to_nat (r mod N.of_nat (length seq))). intros n.
  revert n. induction F as [|x xs Px _ IH]; intros [|n]; cbn [nth]; auto.
Qed.

Lemma returns_random_below :
  returns I (fun _ => True) random_below_one_fifth.
Proof.
  unfold random_below_one_fifth.
  eapply returns_bind; [apply returns_draw|]. intros r _.
  now apply returns_ret.
Qed.

(** The values between the bounds, checked one by one. *)
Lemma rounded_valid lo hi nd :
  forallb (fun i => valid_float (rounded (lo + N.of_nat i) nd))
          (seq 0 (N.to_nat (hi - lo + 1))) = true ->
  forall k, lo <= k <= hi -> valid_float (rounded k nd) = true.
Proof.
  intros C k Hk. rewrite forallb_forall in C.
  replace k with (lo + N.of_nat (N.to_nat (k - lo))) by lia.
  apply C. apply in_seq. lia.
Qed.

Lemma returns_round_uniform lo hi nd :
  lo <= hi ->
  forallb (fun i => valid_float (rounded (lo + N.of_nat i) nd))
          (seq 0 (N.to_nat (hi - lo + 1))) = true ->
  returns I (fun f => valid_float f = true) (round_uniform lo hi nd).
Proof.
  intros H C. unfold round_uniform.
  eapply returns_bind; [apply returns_draw|]. intros r _.
  apply returns_ret. apply (rounded_valid lo hi nd C).
  pose proof (N.mod_upper_bound r (hi - lo + 1) ltac:(lia)) as U.
  revert U. generalize (r mod (hi - lo + 1)). intros x U. lia.
Qed.

Lemma returns_map_m {A B} (P : B -> Prop) (f : A -> M B) xs :
  (forall x, returns I P (f x)) ->
  returns I (fun ys => length ys = length xs /\ Forall P ys) (map_m f xs).
Proof.
  intros Hf. induction xs as [|x xs IH]; cbn [map_m].
  - apply returns_ret. split; [reflexivity|constructor].
  - eapply returns_bind; [apply Hf|]. intros y Py.
    eapply returns_bind; [exact IH|]. intros ys [L F].
    apply returns_ret. cbn [length]. split; [now rewrite L|].
    now constructor.
Qed.

(** A measurement of the simulated producer is a [dict] of the data
    model, [parameter], [value], [unit], [threshold_exceeded], and it is
    valid. *)
Lemma returns_simulate_measurement :
  returns I (fun v => exists m, v = measurement_to_py m
                                /\ valid_measurement m = true)
          simulate_measurement.
Proof.
  unfold simulate_measurement.
  eapply returns_bind with (P := fun s => valid_text s = true).
  { apply returns_choice; [reflexivity|].
    apply Forall_forall, forallb_forall. vm_compute. reflexivity. }
  intros parameter Vp.
  eapply returns_bind
    with (P := fun vu => exists n, fst vu = number_to_py n
                                   /\ valid_number n = true
                                   /\ valid_text (snd vu) = true).
  - repeat match goal with
           | |- returns _ _ (if ?c then _ else _) => destruct c
           end;
      (eapply returns_bind;
       [first [ apply returns_round_uniform;
                [lia|vm_compute; reflexivity]
              | apply returns_randint; lia]|]);
      intros x Hx; apply returns_ret; cbn [fst snd];
      first [ exists (FloatValue x); repeat split; assumption
            | exists (IntValue (Z.of_N x)); repeat split ].
  - intros [v u] (n & Hn & Vn & Vu). cbn [fst snd] in *. subst v.
    eapply returns_bind; [apply returns_random_below|]. intros b _.
    apply returns_ret.
    exists {| parameter := parameter; value := n; unit_label := u;
              threshold_exceeded := b |}.
    split; [reflexivity|].
    unfold valid_measurement.
    cbn [DataModel.parameter DataModel.value DataModel.unit_label].
    now rewrite Vp, Vn, Vu.
Qed.

Lemma Forall_measurements vs :
  Forall (fun v => exists m, v = measurement_to_py m
                             /\ valid_measurement m = true) vs ->
  exists ms, vs = map measurement_to_py ms
             /\ forallb valid_measurement ms = true.
Proof.
  induction 1 as [|v vs (m & -> & Vm) _ (ms & -> & Vms)].
  - exists []. split; reflexivity.
  - exists (m :: ms). split; [reflexivity|].
    cbn [forallb]. now rewrite Vm, Vms.
Qed.

Lemma ascii_valid_text t : Json.ascii_text t -> valid_text t = true.
Proof.
  intros A. apply forallb_forall. intros c Hc.
  unfold Json.ascii_text in A. rewrite Forall_forall in A.
  specialize (A c Hc). cbv beta in A.
  apply JsonFacts.valid_cp_spec. lia.
Qed.

Lemma valid_text_app a b :
  valid_text a = true -> valid_text b = true -> valid_text (a ++ b) = true.
Proof.
  unfold valid_text. intros Ha Hb. rewrite forallb_app, Ha, Hb. reflexivity.
Qed.

(** What the environment provides as identifier and as timestamp has the
    property [T]. *)
Variable T : pystr -> Prop.
Hypothesis T_uuid4 : returns I T uuid4.
Hypothesis T_now : returns I T now_isoformat.

(** The record [simulate_data_upload] returns: an upload record of the
    data model, with 3 to 10 measurements, valid but for the identifier
    and the timestamp the environment provides. *)
Lemma returns_simulate_data_upload :
  returns I
    (fun data =>
       exists r, data = upload_to_py r
                 /\ (3 <= length (measurements r) <= 10)%nat
                 /\ T (batch_id r) /\ T (timestamp r)
                 /\ valid_text (location r) = true
                 /\ valid_text (reporting_entity r) = true
                 /\ forallb valid_measurement (measurements r) = true
                 /\ valid_value (PyDict (metadata r)) = true)
    simulate_data_upload.
Proof.
  unfold simulate_data_upload.
  eapply returns_bind; [apply T_uuid4|]. intros batch_id Tb.
  eapply returns_bind with (P := fun s => valid_text s = true).
  { apply returns_choice; [reflexivity|].
    apply Forall_forall, forallb_forall. vm_compute. reflexivity. }
  intros location Vl.
  eapply returns_bind with (P := fun s => valid_text s = true).
  { apply returns_choice; [reflexivity|].
    apply Forall_forall, forallb_forall. vm_compute. reflexivity. }
  intros entity Ve.
  eapply returns_bind; [apply (returns_randint 3 10); lia|].
  intros n [Hlo Hhi].
  eapply returns_bind; [apply T_now|]. intros timestamp Tt.
  eapply returns_bind.
  { apply returns_map_m. intros _. apply returns_simulate_measurement. }
  intros vs [L F]. rewrite length_seq in L.
  destruct (Forall_measurements vs F) as (ms & -> & Vms).
  rewrite length_map in L.
  eapply returns_bind; [apply (returns_randint 1000 9999); lia|].
  intros device _.
  eapply returns_bind with (P := fun s => valid_text s = true).
  { apply returns_choice; [reflexivity|].
    repeat constructor. }
  intros upload_method Vu.
  eapply returns_bind; [apply returns_log|]. intros _ _.
  apply returns_ret.
  exists {| batch_id := batch_id; timestamp := timestamp;
            location := location; reporting_entity := entity;
            measurements := ms;
            metadata :=
              [(str "device_id",
                PyStr (str "SENSOR-" ++ Json.N_repr device));
               (str "upload_method", PyStr upload_method);
               (str "comments",
                PyStr (str "Datos simulados para prueba de concepto"))] |}.
  split; [reflexivity|].
  cbn [DataModel.measurements DataModel.batch_id DataModel.timestamp
       DataModel.location DataModel.reporting_entity DataModel.metadata].
  repeat split; try assumption; try lia.
  cbn [valid_value forallb fst snd].
  rewrite Vu, valid_text_app;
    [reflexivity|reflexivity|apply ascii_valid_text, JsonFacts.N_repr_ascii].
Qed.

End Returns.

(** From a text environment, the simulated producer returns a valid
    upload record: the round trip of the codec applies to what the
    publisher sends. *)
Lemma simulated_upload_valid :
  returns text_environment
    (fun data => exists r, data = upload_to_py r /\ valid_upload r = true)
    DataPublisher.simulate_data_upload.
Proof.
  assert (E : forall w w', w_env w' = w_env w ->
                           text_environment w -> text_environment w').
  { unfold text_environment. intros w w' ->. trivial. }
  intros w Hw.
  destruct (returns_simulate_data_upload text_environment E
              (fun s => valid_text s = true)) with (w := w)
    as (data & w' & R & (r & -> & _ & V1 & V2 & V3 & V4 & V5 & V6) & I');
    try assumption.
  - intros w0 [U N]. eexists _, _. split; [reflexivity|].
    split; [apply U|]. now apply (E w0).
  - intros w0 [U N]. eexists _, _. split; [reflexivity|].
    split; [apply N|]. now apply (E w0).
  - exists (upload_to_py r), w'. split; [exact R|].
    split; [|exact I']. exists r. split; [reflexivity|].
    unfold valid_upload. now rewrite V1, V2, V3, V4, V5, V6.
Qed.

End ProducerFacts.

(** C9. Cardinality of the simulated producer: from every state,
    [simulate_data_upload] returns an upload record of the data model
    (every measurement a [dict] with [parameter], [value], [unit] and
    [threshold_exceeded]) whose list of measurements has at least 3 and at
    most 10 entries. *)
Theorem producer_cardinality (w : world) :
  exists r w',
    DataPublisher.simulate_data_upload w = (Return (upload_to_py r), w')
    /\ (3 <= length (measurements r) <= 10)%nat
    /\ getitem (upload_to_py r) (str "measurements")
       = Return (PyList (map measurement_to_py (measurements r))).
Proof.
  destruct (ProducerFacts.returns_simulate_data_upload
              (fun _ => True) (fun _ _ _ _ => Logic.I) (fun _ => True))
    with (w := w) as (data & w' & E & (r & -> & B & _) & _).
  - intros w0 _. eexists _, _. repeat split.
  - intros w0 _. eexists _, _. repeat split.
  - exact Logic.I.
  - exists r, w'. repeat split; try assumption; lia.
Qed.

(* --------------------------------------------------------------------- *)
(** ** Start of a process                                                 *)
(* --------------------------------------------------------------------- *)

Module ConnectionFacts.

(** [connect] when the client library refuses the connection with an
    [AMQPConnectionError]. *)
Lemma connect_refused w e :
  env_pika (w_env w) (w_calls w) (connection_call (w_rmq w)) = Some e ->
  isinstance e ClsAMQPConnectionError = true ->
  connect w
  = (Return false,
     add_log (add_calls w [connection_call (w_rmq w)])
       [(ERROR, LogConnectError e)]).
Proof.
  intros H I. unfold connect, try_except, bind, get, pika.
  rewrite H, I. reflexivity.
Qed.

Lemma pika_connect_error_class f :
  isinstance (pika_connect_error f) ClsAMQPConnectionError = true.
Proof. destruct f; reflexivity. Qed.

End ConnectionFacts.

(** C4. Startup failure.  When the broker cannot be reached or rejects the
    credentials (the client library raises [AMQPConnectionError], or its
    subclass [ProbableAuthenticationError]), [connect] returns [False]
    after an error line in the log; the [main] of the publisher and the
    [main] of the consumer then log that no connection could be made and
    return, with no exception, having made no other call to the broker
    than the connection attempt: no publish, no consumer set up, no
    receive loop. *)
Theorem startup_failure (env : environment) (host : pystr) (port : N)
  (user password : pystr) (interval : N) (f : connect_failure) :
  let w := initial_world env host port user password in
  let call := connection_call (w_rmq w) in
  let w1 := add_log (add_calls w [call])
              [(ERROR, LogConnectError (pika_connect_error f))] in
  env_pika env [] call = Some (pika_connect_error f) ->
  connect w = (Return false, w1)
  /\ DataPublisher.main interval w
     = (Return tt, add_log w1 [(ERROR, LogCannotConnect)])
  /\ AdminConsumer.main w
     = (Return tt,
        add_log (add_log w1 [(ERROR, LogCannotConnect)])
          [(INFO, LogConsumerDone)])
  /\ w_calls (snd (DataPublisher.main interval w)) = [call]
  /\ w_calls (snd (AdminConsumer.main w)) = [call].
Proof.
  intros w call w1 H.
  assert (C : connect w = (Return false, w1)).
  { apply ConnectionFacts.connect_refused;
      [exact H|apply ConnectionFacts.pika_connect_error_class]. }
  assert (P : DataPublisher.main interval w
              = (Return tt, add_log w1 [(ERROR, LogCannotConnect)])).
  { unfold DataPublisher.main, try_finally, try_except, bind.
    rewrite C. reflexivity. }
  assert (A : AdminConsumer.main w
              = (Return tt,
                 add_log (add_log w1 [(ERROR, LogCannotConnect)])
                   [(INFO, LogConsumerDone)])).
  { unfold AdminConsumer.main, try_finally, try_except, bind.
    rewrite C. reflexivity. }
  rewrite P, A. repeat split; assumption.
Qed.

(* --------------------------------------------------------------------- *)
(** ** The queue and its consumer                                         *)
(* --------------------------------------------------------------------- *)

Module BrokerFacts.
Import Broker AdminConsumer.





End BrokerFacts.


(* --------------------------------------------------------------------- *)
(** ** The programs on sample inputs                                      *)
(* --------------------------------------------------------------------- *)

(** Bytes that are not UTF-8, and a JSON object without [data]. *)
Example decode_failures :
  loads_utf8 Examples.body_not_utf8 = Raise UnicodeDecodeError
  /\ loads_utf8 Examples.body_not_json = Raise JSONDecodeError
  /\ (exists record,
         loads_utf8 Examples.body_without_data = Return record
         /\ AdminConsumer.missing_key record = Some (str "data")).
Proof.
  split; [vm_compute; reflexivity|].
  split; [vm_compute; reflexivity|].
  eexists. split; vm_compute; reflexivity.
Qed.

(** One round of the publisher, then the consumer on what was published:
    the record has 3 to 10 measurements, the consumer displays it and
    acknowledges the delivery. *)
Example publish_then_consume :
  let publisher := Examples.connected Examples.env_ok in
  let consumer := Examples.connected Examples.env_ok in
  exists data p1 payload,
    DataPublisher.simulate_data_upload publisher = (Return data, p1)
    /\ fst (DataPublisher.publish_notification data p1) = Return true
    /\ last (w_calls (snd (DataPublisher.publish_notification data p1)))
            Channel
       = DataPublisher.publish_call payload
    /\ fst (AdminConsumer.process_message 1 payload consumer) = Return tt
    /\ last (w_calls (snd (AdminConsumer.process_message 1 payload
                             consumer))) Channel
       = BasicAck 1.
Proof.
  cbv zeta. eexists _, _, _.
  split; [vm_compute; reflexivity|].
  split; [vm_compute; reflexivity|].
  split; [vm_compute; reflexivity|].
  split; vm_compute; reflexivity.
Qed.

(* --------------------------------------------------------------------- *)
(** ** The theorems at sample inputs                                      *)
(* --------------------------------------------------------------------- *)


(** A broker that rejects the credentials of the process. *)
Lemma startup_failure_witness :
  let w := Examples.world_of Examples.env_rejecting in
  env_pika Examples.env_rejecting [] (connection_call (w_rmq w))
  = Some (pika_connect_error CredentialsRejected)
  /\ fst (connect w) = Return false
  /\ fst (DataPublisher.main 10 w) = Return tt
  /\ fst (AdminConsumer.main w) = Return tt
  /\ w_calls (snd (DataPublisher.main 10 w)) = [connection_call (w_rmq w)]
  /\ w_calls (snd (AdminConsumer.main w)) = [connection_call (w_rmq w)].
Proof.
  intros w.
  split; [vm_compute; reflexivity|].
  destruct (startup_failure Examples.env_rejecting (str "localhost") 5672
              (str "guest") (str "guest") 10 CredentialsRejected)
    as (C & P & A & CP & CA); [vm_compute; reflexivity|].
  unfold w, Examples.world_of.
  rewrite C, P, A. repeat split.
Defined.

(** A publish the broker refuses, on a connected process. *)
Lemma publish_error_handling_witness :
  let w := Examples.connected Examples.env_refusing_publish in
  let data := upload_to_py (Examples.upload [Examples.measurement_ok]) in
  channel (w_rmq w) <> None
  /\ fst (DataPublisher.publish_notification data w) = Return false.
Proof.
  intros w data.
  split; [vm_compute; discriminate|].
  destruct (publish_error_handling data w) as (payload & w1 & E & G & H);
    [vm_compute; discriminate|].
  cbv zeta in H.
  change (env_pika (w_env w) (w_calls w) (DataPublisher.publish_call payload))
    with (Some AMQPChannelError) in H.
  rewrite (H eq_refl). reflexivity.
Defined.

(** A publish the broker accepts, on a connected process. *)
Lemma publish_postcondition_witness :
  let w := Examples.connected Examples.env_ok in
  let data := upload_to_py (Examples.upload [Examples.measurement_ok]) in
  channel (w_rmq w) <> None
  /\ exists payload,
       w_calls (snd (DataPublisher.publish_notification data w))
       = w_calls w
         ++ [BasicPublish (str "observatorio_events")
               (str "water.data.uploaded") payload 2
               (str "application/json")].
Proof.
  intros w data.
  split; [vm_compute; discriminate|].
  destruct (publish_postcondition data w) as (payload & w1 & _ & H);
    [vm_compute; discriminate|].
  exists payload. exact H.
Defined.


(** A payload that is not JSON, and a record without its fields. *)
Lemma undecodable_message_not_acked_witness :
  let w := Examples.connected Examples.env_ok in
  loads_utf8 Examples.body_not_json = Raise JSONDecodeError
  /\ (exists w',
         AdminConsumer.process_message 7 Examples.body_not_json w
         = (Raise (KeyError (str "data")), w')
         /\ w_calls w' = w_calls w)
  /\ (exists data,
         loads_utf8 Examples.body_partial_data = Return data
         /\ AdminConsumer.missing_key data = Some (str "timestamp")
         /\ exists w',
              AdminConsumer.process_message 8 Examples.body_partial_data w
              = (Raise (KeyError (str "timestamp")), w')
              /\ w_calls w' = w_calls w).
Proof.
  intros w.
  split; [vm_compute; reflexivity|].
  split.
  - apply (proj1 undecodable_message_not_acked 7 Examples.body_not_json w
             JSONDecodeError).
    vm_compute. reflexivity.
  - eexists. split; [vm_compute; reflexivity|].
    split; [vm_compute; reflexivity|].
    eapply (proj2 undecodable_message_not_acked 8 Examples.body_partial_data
              w _ (str "timestamp")); vm_compute; reflexivity.
Defined.

(* --------------------------------------------------------------------- *)
(** ** What a step leaves alone                                           *)
(* --------------------------------------------------------------------- *)

Import Behaviour Simulation.

Module FrameFacts.

Section Keeps.
Context {X : Type} (f : world -> X).

Lemma keeps_ret {A} (a : A) : keeps f (ret a).
Proof. intros w. reflexivity. Qed.

Lemma keeps_raise {A} e : keeps f (@raise A e).
Proof. intros w. reflexivity. Qed.

Lemma keeps_lift {A} (r : result A) : keeps f (lift r).
Proof. intros w. reflexivity. Qed.


Lemma keeps_bind {A B} (m : M A) (k : A -> M B) :
  keeps f m -> (forall a, keeps f (k a)) -> keeps f (bind m k).
Proof.
  intros Hm Hk w. unfold bind. specialize (Hm w).
  destruct (m w) as [[a|e] w1]; cbn [snd] in *.
  - rewrite Hk. exact Hm.
  - exact Hm.
Qed.

Lemma keeps_try_except {A} (m : M A) cls h :
  keeps f m -> (forall e, keeps f (h e)) -> keeps f (try_except m cls h).
Proof.
  intros Hm Hh w. unfold try_except. specialize (Hm w).
  destruct (m w) as [[a|e] w1]; cbn [snd] in *; [exact Hm|].
  destruct (isinstance e cls); [|exact Hm].
  rewrite Hh. exact Hm.
Qed.

Lemma keeps_try_finally {A} (m : M A) c :
  keeps f m -> keeps f c -> keeps f (try_finally m c).
Proof.
  intros Hm Hc w. unfold try_finally. specialize (Hm w).
  destruct (m w) as [r w1]. cbn [snd] in Hm. specialize (Hc w1).
  destruct (c w1) as [[[]|e] w2]; cbn [snd] in *; congruence.
Qed.

Lemma keeps_for_each {A} (xs : list A) (body : A -> M unit) :
  (forall x, keeps f (body x)) -> keeps f (for_each xs body).
Proof.
  intros Hb. induction xs as [|x xs IH]; cbn [for_each].
  - apply keeps_ret.
  - apply keeps_bind; [apply Hb|intros _; exact IH].
Qed.

Lemma keeps_map_m {A B} (g : A -> M B) xs :
  (forall x, keeps f (g x)) -> keeps f (map_m g xs).
Proof.
  intros Hg. induction xs as [|x xs IH]; cbn [map_m].
  - apply keeps_ret.
  - apply keeps_bind; [apply Hg|intros y].
    apply keeps_bind; [exact IH|intros ys]. apply keeps_ret.
Qed.

Lemma keeps_if {A} (c : bool) (a b : M A) :
  keeps f a -> keeps f b -> keeps f (if c then a else b).
Proof. destruct c; auto. Qed.

End Keeps.


(** The steps of which the programs are made, one tactic for all the
    observations a step leaves alone. *)
Ltac keeps :=
  repeat first
    [ apply keeps_bind; [|intros ?]
    | apply keeps_for_each; intros ?
    | apply keeps_map_m; intros ?
    | apply keeps_try_except; [|intros ?]
    | apply keeps_try_finally
    | apply keeps_if
    | solve [intros ?; reflexivity] ].

End FrameFacts.

(* --------------------------------------------------------------------- *)
(** ** Life cycle of the connection                                       *)
(* --------------------------------------------------------------------- *)

Module LifecycleFacts.
Import FrameFacts.

(** [close], case by case. *)
Lemma close_cases w :
  match connection (w_rmq w) with
  | Some true =>
      match env_pika (w_env w) (w_calls w) ConnectionClose with
      | Some e => close w = (Raise e, add_calls w [ConnectionClose])
      | None =>
          close w
          = (Return tt,
             add_log
               (with_rmq (add_calls w [ConnectionClose])
                  (with_channel (with_connection (w_rmq w) (Some false))
                     (option_map (fun _ => false) (channel (w_rmq w)))))
               [(INFO, LogClosed)])
      end
  | _ => close w = (Return tt, w)
  end.
Proof.
  unfold close, bind, get.
  destruct (connection (w_rmq w)) as [[|]|]; try reflexivity.
  unfold pika. destruct (env_pika _ _ _); reflexivity.
Qed.

Lemma close_accepted w :
  connection (w_rmq w) = Some true ->
  env_pika (w_env w) (w_calls w) ConnectionClose = None ->
  close w
  = (Return tt,
     add_log
       (with_rmq (add_calls w [ConnectionClose])
          (with_channel (with_connection (w_rmq w) (Some false))
             (option_map (fun _ => false) (channel (w_rmq w)))))
       [(INFO, LogClosed)]).
Proof.
  intros C E. pose proof (close_cases w) as H. now rewrite C, E in H.
Qed.

Lemma close_nothing_open w :
  connection (w_rmq w) <> Some true -> close w = (Return tt, w).
Proof.
  intros C. pose proof (close_cases w) as H.
  destruct (connection (w_rmq w)) as [[|]|]; congruence.
Qed.

(** [connect] when the three calls return. *)
Lemma connect_accepted w :
  let self := w_rmq w in
  env_pika (w_env w) (w_calls w) (connection_call self) = None ->
  env_pika (w_env w) (w_calls w ++ [connection_call self]) Channel = None ->
  env_pika (w_env w) ((w_calls w ++ [connection_call self]) ++ [Channel])
    (ExchangeDeclare EXCHANGE_NAME (str "topic") true) = None ->
  connect w
  = (Return true,
     add_log
       (add_calls
          (with_rmq w
             (with_channel (with_connection self (Some true)) (Some true)))
          (connect_calls self))
       [(INFO, LogConnected (host self) (port self))]).
Proof.
  intros self H1 H2 H3.
  unfold connect, try_except, bind, get, pika, set_rmq, log, ret.
  fold self. rewrite H1.
  cbn [w_env w_calls add_calls with_rmq w_rmq].
  rewrite H2. cbn [w_env w_calls add_calls with_rmq w_rmq].
  rewrite H3.
  unfold add_log, add_calls, with_rmq, connect_calls. cbn.
  rewrite <- !app_assoc. reflexivity.
Qed.

(** [connect] when the connection attempt raises something else than an
    [AMQPConnectionError]. *)
Lemma connect_raises w e :
  env_pika (w_env w) (w_calls w) (connection_call (w_rmq w)) = Some e ->
  isinstance e ClsAMQPConnectionError = false ->
  connect w = (Raise e, add_calls w [connection_call (w_rmq w)]).
Proof.
  intros H I. unfold connect, try_except, bind, get, pika.
  rewrite H, I. reflexivity.
Qed.

End LifecycleFacts.

(** X1. [close] is safe to call again: once it has returned, a second
    call returns without a call to the broker and leaves the state as it
    is; and the connection is no longer flagged open. *)
Theorem close_twice (w w1 : world) :
  close w = (Return tt, w1) ->
  close w1 = (Return tt, w1) /\ connection (w_rmq w1) <> Some true.
Proof.
  intros H. pose proof (LifecycleFacts.close_cases w) as C.
  assert (N : connection (w_rmq w1) <> Some true).
  { destruct (connection (w_rmq w)) as [[|]|] eqn:Cn.
    - destruct (env_pika _ _ _); rewrite C in H; [discriminate|].
      injection H as <-. cbn. discriminate.
    - rewrite C in H. injection H as <-. congruence.
    - rewrite C in H. injection H as <-. congruence. }
  split; [|exact N]. now apply LifecycleFacts.close_nothing_open.
Qed.

(** X2. A successful [connect]: when the three calls to the client
    library return, [connect] returns [True] having opened the connection
    (heartbeat 600) and a channel and declared the exchange
    [observatorio_events] of type [topic], durable, in that order; both are
    then flagged open and one information line is logged. *)
Theorem connect_success (w : world) :
  let self := w_rmq w in
  env_pika (w_env w) (w_calls w) (connection_call self) = None ->
  env_pika (w_env w) (w_calls w ++ [connection_call self]) Channel = None ->
  env_pika (w_env w) ((w_calls w ++ [connection_call self]) ++ [Channel])
    (ExchangeDeclare EXCHANGE_NAME (str "topic") true) = None ->
  exists w',
    connect w = (Return true, w')
    /\ w_calls w'
       = w_calls w
         ++ [BlockingConnection (host self) (port self) (virtual_host self)
               (user self) (password self) 600;
             Channel;
             ExchangeDeclare (str "observatorio_events") (str "topic") true]
    /\ connection (w_rmq w') = Some true
    /\ channel (w_rmq w') = Some true
    /\ w_log w' = w_log w ++ [(INFO, LogConnected (host self) (port self))].
Proof.
  intros self H1 H2 H3.
  eexists. split; [now apply LifecycleFacts.connect_accepted|].
  repeat split.
Qed.

(** X3. An exception of the connection attempt that is not an
    [AMQPConnectionError] is not turned into [False]: it leaves [connect];
    it leaves the [main] of the publisher as well, which has no handler
    for it, while the [main] of the consumer logs it and returns.  Neither
    enters its loop, and there is nothing to close. *)
Theorem connect_other_exception (env : environment) (host : pystr) (port : N)
  (user password : pystr) (interval : N) (e : exn) :
  let w := initial_world env host port user password in
  let call := connection_call (w_rmq w) in
  env_pika env [] call = Some e ->
  isinstance e ClsAMQPConnectionError = false ->
  isinstance e ClsException = true ->
  connect w = (Raise e, add_calls w [call])
  /\ DataPublisher.main interval w = (Raise e, add_calls w [call])
  /\ AdminConsumer.main w
     = (Return tt,
        add_log (add_calls w [call])
          [(ERROR, LogConsumerError e); (INFO, LogConsumerDone)]).
Proof.
  intros w call H I1 I2.
  assert (C : connect w = (Raise e, add_calls w [call]))
    by now apply LifecycleFacts.connect_raises.
  split; [exact C|]. split.
  - unfold DataPublisher.main, try_finally, try_except, bind.
    rewrite C.
    replace (isinstance e ClsKeyboardInterrupt) with false
      by (destruct e; try reflexivity; discriminate I2).
    reflexivity.
  - unfold AdminConsumer.main, try_finally, try_except, bind.
    rewrite C, I2. reflexivity.
Qed.

(* --------------------------------------------------------------------- *)
(** ** Publishing: edge cases                                             *)
(* --------------------------------------------------------------------- *)

Module PublishEdgeFacts.

(** [publish_notification] on a connection object without a channel. *)
Lemma publish_without_channel data w :
  channel (w_rmq w) = None ->
  exists payload w1,
    serialize_message
      (DataPublisher.notification (env_now (w_env w) (w_clock w)) data)
      (tick w) = (Return payload, w1)
    /\ DataPublisher.publish_notification data w
       = (Return false, add_log w1 [(ERROR, LogPublishError AttributeError)])
    /\ w_calls w1 = w_calls w.
Proof.
  intros C.
  destruct (PublisherFacts.serialize_message_frame
              (DataPublisher.notification (env_now (w_env w) (w_clock w))
                 data) (tick w)) as (payload & w1 & E & F).
  exists payload, w1. split; [exact E|].
  assert (G : w_calls w1 = w_calls w
              /\ channel (w_rmq w1) = channel (w_rmq w)).
  { destruct F as [->|[e ->]]; split; reflexivity. }
  destruct G as [G1 G2]. split; [|exact G1].
  unfold DataPublisher.publish_notification, try_except, bind,
    now_isoformat.
  rewrite E. unfold DataPublisher.the_channel, bind, get.
  rewrite G2, C. reflexivity.
Qed.

(** The payload sent for a value [json] cannot encode. *)
Lemma marker_roundtrip :
  exists payload,
    dumps_utf8 serialization_error_marker = Return payload
    /\ loads_utf8 payload = Return serialization_error_marker.
Proof.
  eexists. split; [vm_compute; reflexivity|].
  vm_compute. reflexivity.
Qed.

End PublishEdgeFacts.

(** X4. A publish can be sent and still reported as failed: with a channel
    at hand and a [basic_publish] that returns, when [data] has no
    [batch_id] (the lookup for the log line raises), the message has been
    published, one error line is logged and [publish_notification]
    returns [False]. *)
Theorem publish_without_batch_id (data : pyval) (w : world) (e : exn) :
  channel (w_rmq w) <> None ->
  getitem data (str "batch_id") = Raise e ->
  exists payload w1,
    serialize_message
      (DataPublisher.notification (env_now (w_env w) (w_clock w)) data)
      (tick w) = (Return payload, w1)
    /\ (env_pika (w_env w) (w_calls w) (DataPublisher.publish_call payload)
        = None ->
        DataPublisher.publish_notification data w
        = (Return false,
           add_log (add_calls w1 [DataPublisher.publish_call payload])
             [(ERROR, LogPublishError e)])).
Proof.
  intros C B.
  destruct (PublisherFacts.publish_notification_cases data w C)
    as (payload & w1 & E & G & H).
  exists payload, w1. split; [exact E|]. intros A.
  cbv zeta in H. rewrite H, A, B. reflexivity.
Qed.

(** X5. A publish before any connection: without a channel,
    [publish_notification] makes no call to the broker, logs the
    [AttributeError] and returns [False]. *)
Theorem publish_before_connect (data : pyval) (w : world) :
  channel (w_rmq w) = None ->
  exists w',
    DataPublisher.publish_notification data w = (Return false, w')
    /\ w_calls w' = w_calls w
    /\ exists entries,
         w_log w' = w_log w ++ entries
         /\ last entries (INFO, LogClosed)
            = (ERROR, LogPublishError AttributeError).
Proof.
  intros C.
  destruct (PublishEdgeFacts.publish_without_channel data w C)
    as (payload & w1 & E & P & G).
  eexists. split; [exact P|]. split; [exact G|].
  destruct (PublisherFacts.serialize_message_frame
              (DataPublisher.notification (env_now (w_env w) (w_clock w))
                 data) (tick w)) as (payload' & w1' & E' & F).
  rewrite E in E'. injection E' as <- <-.
  destruct F as [->|[x ->]].
  - exists [(ERROR, LogPublishError AttributeError)]. split; reflexivity.
  - exists [(ERROR, LogSerializeError x);
            (ERROR, LogPublishError AttributeError)].
    split; [|reflexivity]. cbn. now rewrite <- app_assoc.
Qed.

(** X6. A value [json] cannot encode travels as the error marker: when
    encoding raises, [serialize_message] returns a payload that every
    consumer decodes to [{"error": "Error de serialización"}]; the handler
    then raises [KeyError('data')] and the delivery is not
    acknowledged. *)
Theorem unserialisable_value_not_acked (data : pyval) (e : exn) (w : world) :
  dumps_utf8 data = Raise e ->
  exists payload,
    serialize_message data w
    = (Return payload, add_log w [(ERROR, LogSerializeError e)])
    /\ loads_utf8 payload = Return serialization_error_marker
    /\ forall tag consumer,
         exists consumer',
           AdminConsumer.process_message tag payload consumer
           = (Raise (KeyError (str "data")), consumer')
           /\ w_calls consumer' = w_calls consumer.
Proof.
  intros D.
  destruct PublishEdgeFacts.marker_roundtrip as (payload & M & L).
  exists payload.
  destruct (CodecErrors.serialize_message_cases data w)
    as [(p & D' & _)|(e' & p & D' & M' & S)]; [congruence|].
  assert (e' = e) by congruence. subst e'.
  assert (p = payload) by congruence. subst p.
  split; [exact S|]. split; [exact L|].
  intros tag consumer.
  destruct (ConsumerFacts.process_message_cases tag payload consumer)
    as (v & w1 & E & _ & H).
  destruct (CodecErrors.deserialize_message_cases payload consumer)
    as [(v' & L' & E')|(x & L' & _)]; [|congruence].
  rewrite E' in E. injection E as <- <-. cbv zeta in H.
  assert (v' = serialization_error_marker) by congruence. subst v'.
  destruct (ConsumerFacts.display_notification_missing
              serialization_error_marker (str "data")
              (add_log consumer
                 [(DEBUG, LogReceived serialization_error_marker)])
              eq_refl) as [w' Dn].
  rewrite Dn in H. exists w'. exact H.
Qed.

Module AsciiFacts.
Import Json JsonFacts Utf8 Utf8Facts CodecFacts.


End AsciiFacts.


(* --------------------------------------------------------------------- *)
(** ** Display of a notification                                          *)
(* --------------------------------------------------------------------- *)

Module DisplayFacts.
Import AdminConsumer ConsumerFacts.

Lemma prints_only_ret {A} (a : A) : prints_only (ret a).
Proof. intros w. exists []. cbn. now rewrite add_stdout_nil. Qed.

Lemma prints_only_lift {A} (r : result A) : prints_only (lift r).
Proof. intros w. exists []. cbn. now rewrite add_stdout_nil. Qed.

Lemma prints_only_print o : prints_only (print o).
Proof. intros w. exists [o]. reflexivity. Qed.

Lemma prints_only_bind {A B} (m : M A) (k : A -> M B) :
  prints_only m -> (forall a, prints_only (k a)) -> prints_only (bind m k).
Proof.
  intros Hm Hk w. unfold bind. destruct (Hm w) as [o1 E1].
  destruct (m w) as [[a|e] w1]; cbn [snd] in *.
  - destruct (Hk a w1) as [o2 E2]. exists (o1 ++ o2).
    now rewrite E2, E1, add_stdout_add_stdout.
  - exists o1. exact E1.
Qed.

Lemma prints_only_for_each {A} (xs : list A) (body : A -> M unit) :
  (forall x, prints_only (body x)) -> prints_only (for_each xs body).
Proof.
  intros Hb. induction xs as [|x xs IH]; cbn [for_each].
  - apply prints_only_ret.
  - apply prints_only_bind; [apply Hb|intros _; exact IH].
Qed.

Ltac prints_only :=
  repeat first
    [ apply prints_only_bind; [|intros ?]
    | apply prints_only_for_each; intros ?
    | apply prints_only_ret
    | apply prints_only_lift
    | apply prints_only_print ].

(** After the counter and the header, [display_notification] only
    prints. *)
Lemma display_notification_prints data w :
  exists out,
    snd (display_notification data w)
    = add_stdout (with_notification_count w (w_notification_count w + 1))
        (OutHeader (w_notification_count w + 1) :: out).
Proof.
  unfold display_notification.
  rewrite bind_get, bind_set_notification_count, bind_print_header.
  match goal with
  | |- exists out, snd (?m ?w0) = _ =>
      assert (P : prints_only m)
  end.
  { prints_only.
    - destruct x as [i m]. unfold display_measurement. prints_only.
    - match goal with |- prints_only (match ?a with _ => _ end) =>
        destruct a end; prints_only. }
  match goal with
  | |- exists out, snd (?m ?w0) = _ => destruct (P w0) as [out E]
  end.
  exists out. rewrite E, add_stdout_add_stdout. reflexivity.
Qed.

(** The handler on a value that is not a record. *)
Lemma display_notification_not_a_record data w :
  not_a_record data ->
  exists w', display_notification data w = (Raise TypeError, w').
Proof.
  intros N. unfold display_notification.
  rewrite bind_get, bind_set_notification_count, bind_print_header,
    bind_lift.
  destruct N as [N|(d & v & -> & D & N)].
  - destruct data; try discriminate N; eexists; reflexivity.
  - cbn [getitem]. rewrite D. cbn [of_option rbind].
    destruct v; try discriminate N; eexists; reflexivity.
Qed.




End DisplayFacts.

(** X8. A notification is counted and its header printed before the
    record is looked at: whatever the decoded value, and whether
    [display_notification] returns or raises, the counter of the notifier
    has gone up by one and what was printed starts with the header that
    shows the new count. *)
Theorem display_counts_before_reading (data : pyval) (w : world) :
  let w' := snd (AdminConsumer.display_notification data w) in
  w_notification_count w' = w_notification_count w + 1
  /\ exists out,
       w_stdout w'
       = w_stdout w ++ OutHeader (w_notification_count w + 1) :: out.
Proof.
  cbv zeta.
  destruct (DisplayFacts.display_notification_prints data w) as [out E].
  rewrite E. split; [reflexivity|]. exists out. reflexivity.
Qed.

(** X9. A payload that is JSON but not a record: when the decoded value
    is not a [dict] (a list, a number, a string, ...) or its [data] is
    not one, the subscript in the handler raises [TypeError] and
    [process_message] ends without acknowledging the delivery. *)
Theorem non_record_payload_not_acked (tag : N) (body : pybytes)
  (data : pyval) (w : world) :
  loads_utf8 body = Return data ->
  not_a_record data ->
  exists w',
    AdminConsumer.process_message tag body w = (Raise TypeError, w')
    /\ w_calls w' = w_calls w.
Proof.
  intros L N.
  destruct (ConsumerFacts.process_message_cases tag body w)
    as (v & w1 & E & _ & H).
  destruct (CodecErrors.deserialize_message_cases body w)
    as [(v' & L' & E')|(x & L' & _)]; [|congruence].
  rewrite E' in E. injection E as <- <-. cbv zeta in H.
  assert (v' = data) by congruence. subst v'.
  destruct (DisplayFacts.display_notification_not_a_record data
              (add_log w [(DEBUG, LogReceived data)]) N) as [w' D].
  rewrite D in H. exists w'. exact H.
Qed.


(* --------------------------------------------------------------------- *)
(** ** The receive loop                                                   *)
(* --------------------------------------------------------------------- *)

Module ReceiveFacts.
Import AdminConsumer ConsumerFacts FrameFacts.









End ReceiveFacts.



(* --------------------------------------------------------------------- *)
(** ** Runs of the two programs                                           *)
(* --------------------------------------------------------------------- *)

Module MainFacts.
Import FrameFacts ConsumerFacts.

(** [connect] from the initial state, with a broker that takes every
    call. *)
Lemma connect_initial env host port user password :
  accepting env ->
  let w := initial_world env host port user password in
  exists w1,
    connect w = (Return true, w1)
    /\ w_calls w1 = connect_calls (w_rmq w)
    /\ w_env w1 = env
    /\ connection (w_rmq w1) = Some true
    /\ channel (w_rmq w1) = Some true.
Proof.
  intros A w. eexists.
  split; [apply LifecycleFacts.connect_accepted; apply A|].
  repeat split.
Qed.




(** [simulate_data_upload] makes no call and leaves the connection
    alone. *)
Lemma keeps_simulate_data_upload {X} (f : world -> X) :
  (forall w, f (next_draw w) = f w) ->
  (forall w, f (next_uuid w) = f w) ->
  (forall w, f (tick w) = f w) ->
  (forall w l, f (add_log w l) = f w) ->
  keeps f DataPublisher.simulate_data_upload.
Proof.
  intros Hd Hu Ht Hl.
  assert (D : keeps f draw) by (intros w; apply Hd).
  assert (Ch : forall A (d : A) s, keeps f (choice d s)).
  { intros A d s. apply keeps_bind; [exact D|]. intros r. apply keeps_ret. }
  assert (Ri : forall a b, keeps f (randint a b)).
  { intros a b. apply keeps_bind; [exact D|]. intros r. apply keeps_ret. }
  assert (Ru : forall a b n, keeps f (round_uniform a b n)).
  { intros a b n. apply keeps_bind; [exact D|]. intros r. apply keeps_ret. }
  unfold DataPublisher.simulate_data_upload.
  apply keeps_bind; [intros w; apply Hu|]. intros batch_id.
  apply keeps_bind; [apply Ch|]. intros location.
  apply keeps_bind; [apply Ch|]. intros entity.
  apply keeps_bind; [apply Ri|]. intros n.
  apply keeps_bind; [intros w; apply Ht|]. intros timestamp.
  apply keeps_bind.
  { apply keeps_map_m. intros _. unfold DataPublisher.simulate_measurement.
    apply keeps_bind; [apply Ch|]. intros parameter.
    apply keeps_bind.
    - repeat (apply keeps_if;
              [apply keeps_bind; [first [apply Ru|apply Ri]|];
               intros v; apply keeps_ret|]).
      apply keeps_bind; [apply Ru|]. intros v. apply keeps_ret.
    - intros vu. apply keeps_bind.
      + apply keeps_bind; [exact D|]. intros r. apply keeps_ret.
      + intros b. apply keeps_ret. }
  intros ms.
  apply keeps_bind; [apply Ri|]. intros device.
  apply keeps_bind; [apply Ch|]. intros method.
  apply keeps_bind; [intros w; apply Hl|]. intros _. apply keeps_ret.
Qed.

(** One round of the publisher with a broker that takes every call. *)
Lemma publish_round w :
  accepting (w_env w) -> channel (w_rmq w) <> None ->
  exists payload w',
    bind DataPublisher.simulate_data_upload
      DataPublisher.publish_notification w = (Return true, w')
    /\ w_calls w' = w_calls w ++ [DataPublisher.publish_call payload]
    /\ w_env w' = w_env w
    /\ w_rmq w' = w_rmq w.
Proof.
  intros A C.
  destruct (ProducerFacts.returns_simulate_data_upload
              (fun _ => True) (fun _ _ _ _ => Logic.I) (fun _ => True))
    with (w := w) as (data & w1 & E & (r & -> & _) & _).
  { intros w0 _. eexists _, _. repeat split. }
  { intros w0 _. eexists _, _. repeat split. }
  { exact Logic.I. }
  pose proof (keeps_simulate_data_upload w_calls
                ltac:(reflexivity) ltac:(reflexivity) ltac:(reflexivity)
                ltac:(reflexivity) w) as Kc.
  pose proof (keeps_simulate_data_upload w_env
                ltac:(reflexivity) ltac:(reflexivity) ltac:(reflexivity)
                ltac:(reflexivity) w) as Ke.
  pose proof (keeps_simulate_data_upload w_rmq
                ltac:(reflexivity) ltac:(reflexivity) ltac:(reflexivity)
                ltac:(reflexivity) w) as Kr.
  rewrite E in Kc, Ke, Kr. cbn [snd] in Kc, Ke, Kr.
  destruct (PublisherFacts.publish_notification_cases (upload_to_py r) w1)
    as (payload & w2 & S & G & H); [now rewrite Kr|].
  cbv zeta in H. rewrite Ke, A in H.
  change (getitem (upload_to_py r) (str "batch_id"))
    with (Return (PyStr (batch_id r))) in H.
  exists payload. eexists. rewrite (bind_Return _ _ _ _ _ E).
  split; [exact H|].
  destruct (PublisherFacts.serialize_message_frame
              (DataPublisher.notification
                 (env_now (w_env w1) (w_clock w1)) (upload_to_py r))
              (tick w1)) as (p' & w2' & S' & Fr).
  rewrite S in S'. injection S' as <- <-.
  destruct Fr as [->|[x ->]]; cbn; rewrite ?Kc; repeat split;
    assumption.
Qed.

(** The loop of the publisher: one publish a round, until the
    interrupt. *)
Lemma publish_loop_rounds n :
  forall w,
    accepting (w_env w) -> channel (w_rmq w) <> None ->
    exists payloads w',
      DataPublisher.publish_loop n w = (Raise KeyboardInterrupt, w')
      /\ length payloads = S n
      /\ w_calls w' = w_calls w ++ map DataPublisher.publish_call payloads
      /\ w_env w' = w_env w
      /\ w_rmq w' = w_rmq w.
Proof.
  induction n as [|n IH]; intros w A C.
  - destruct (publish_round w A C) as (p & w1 & E & Cs & Ee & Er).
    exists [p], w1. cbn [DataPublisher.publish_loop].
    rewrite <- bind_assoc, (bind_Return _ _ _ _ _ E).
    repeat split; assumption.
  - destruct (publish_round w A C) as (p & w1 & E & Cs & Ee & Er).
    destruct (IH w1) as (ps & w' & E' & L & Cs' & Ee' & Er').
    { now rewrite Ee. }
    { now rewrite Er. }
    exists (p :: ps), w'. cbn [DataPublisher.publish_loop].
    rewrite <- bind_assoc, (bind_Return _ _ _ _ _ E).
    split; [exact E'|]. split; [cbn; lia|].
    split; [rewrite Cs', Cs, <- app_assoc; reflexivity|].
    split; congruence.
Qed.

End MainFacts.


(** X14. A run of the publisher: with a broker that takes every call,
    when the operator interrupts the publisher after [n] completed rounds,
    in the pause of round [n + 1], its [main] returns (the interrupt is
    caught and logged), having made the three calls of [connect], then
    [n + 1] publishes and nothing else, then the close of the connection,
    which is no longer open. *)
Theorem publisher_main_run (env : environment) (host : pystr) (port : N)
  (user password : pystr) (interval : N) :
  accepting env ->
  let w := initial_world env host port user password in
  exists w' payloads,
    DataPublisher.main interval w = (Return tt, w')
    /\ length payloads = S (env_rounds env)
    /\ w_calls w'
       = connect_calls (w_rmq w)
         ++ map DataPublisher.publish_call payloads ++ [ConnectionClose]
    /\ connection (w_rmq w') = Some false
    /\ In (INFO, LogSimulationInterrupted) (w_log w').
Proof.
  intros A w.
  destruct (MainFacts.connect_initial env host port user password A)
    as (w1 & C & Cs1 & E1 & Cn1 & Ch1). fold w in C, Cs1.
  set (w2 := add_log w1 [(INFO, LogSimulationStarted interval)]).
  destruct (MainFacts.publish_loop_rounds (env_rounds env) w2)
    as (ps & w3 & L & Len & Cs3 & E3 & R3).
  { unfold w2. cbn. now rewrite E1. }
  { unfold w2. cbn. congruence. }
  set (w4 := add_log w3 [(INFO, LogSimulationInterrupted)]).
  assert (Cl : close w4
               = (Return tt,
                  add_log
                    (with_rmq (add_calls w4 [ConnectionClose])
                       (with_channel
                          (with_connection (w_rmq w4) (Some false))
                          (option_map (fun _ => false)
                             (channel (w_rmq w4)))))
                    [(INFO, LogClosed)])).
  { apply LifecycleFacts.close_accepted.
    - unfold w4. cbn. rewrite R3. unfold w2. cbn. exact Cn1.
    - unfold w4. cbn. rewrite E3. unfold w2. cbn. rewrite E1. apply A. }
  eexists. exists ps. split.
  - unfold DataPublisher.main, try_finally, try_except.
    rewrite (ConsumerFacts.bind_Return _ _ _ _ _ C). cbn [negb].
    unfold bind at 1, log at 1. fold w2.
    rewrite ConsumerFacts.bind_get.
    replace (env_rounds (w_env w2)) with (env_rounds env)
      by (unfold w2; cbn; now rewrite E1).
    rewrite L. cbn [isinstance]. unfold log. fold w4.
    rewrite Cl. reflexivity.
  - split; [exact Len|]. split.
    + cbn [w_calls add_log with_rmq add_calls]. unfold w4.
      cbn [w_calls add_log]. rewrite Cs3. unfold w2.
      cbn [w_calls add_log]. rewrite Cs1, <- app_assoc. reflexivity.
    + split; [reflexivity|].
      cbn [w_log add_log with_rmq add_calls]. unfold w4.
      cbn [w_log add_log]. apply in_or_app. left.
      apply in_or_app. right. left. reflexivity.
Qed.

(* --------------------------------------------------------------------- *)
(** ** Fields of the simulated record                                     *)
(* --------------------------------------------------------------------- *)

Module SimulationFacts.
Import FrameFacts ProducerFacts DataPublisher.

Lemma pystr_eqb_true a b : pystr_eqb a b = true -> a = b.
Proof. unfold pystr_eqb. now destruct (list_eq_dec N.eq_dec a b). Qed.

Lemma pystr_eqb_false a b : pystr_eqb a b = false -> a <> b.
Proof. unfold pystr_eqb. now destruct (list_eq_dec N.eq_dec a b). Qed.

Ltac listed := cbn [In unit_of_parameter]; tauto.

Ltac distinct :=
  let H := fresh in
  intros [H|H]; vm_compute in H; discriminate H.

Section Fields.

Variable I : world -> Prop.
Hypothesis I_env : forall w w', w_env w' = w_env w -> I w -> I w'.

Lemma returns_round_uniform_range lo hi nd :
  lo <= hi ->
  returns I (fun f => exists k, lo <= k <= hi /\ f = rounded k nd)
          (round_uniform lo hi nd).
Proof.
  intros H. unfold round_uniform.
  eapply returns_bind; [now apply returns_draw|]. intros r _.
  apply returns_ret. eexists. split; [|reflexivity].
  pose proof (N.mod_upper_bound r (hi - lo + 1) ltac:(lia)) as U.
  revert U. generalize (r mod (hi - lo + 1)). intros x U. lia.
Qed.

Lemma rounded_bound k nd bound :
  k <= bound * 10 ^ N.of_nat nd ->
  exists i frac, rounded k nd = Finite false i frac /\ i <= bound.
Proof.
  intros H. unfold rounded. eexists _, _. split; [reflexivity|].
  apply N.Div0.div_le_upper_bound. lia.
Qed.

Lemma returns_float lo hi nd parameter :
  lo <= hi -> hi <= 100 * 10 ^ N.of_nat nd -> ~ counted parameter ->
  returns I
    (fun f => ~ counted parameter
              /\ exists i frac, f = Finite false i frac /\ i <= 100)
    (round_uniform lo hi nd).
Proof.
  intros H B C w Hw.
  destruct (returns_round_uniform_range lo hi nd H w Hw)
    as (f & w' & E & (k & Hk & ->) & Hw').
  exists (rounded k nd), w'. split; [exact E|]. split; [|exact Hw'].
  split; [exact C|]. apply rounded_bound. lia.
Qed.

Lemma returns_simulate_measurement_table :
  returns I (fun v => exists m, v = measurement_to_py m /\ as_simulated m)
          simulate_measurement.
Proof.
  unfold simulate_measurement.
  eapply returns_bind with (P := fun s => In s WATER_PARAMETERS).
  { apply returns_choice; [assumption|now left|].
    apply Forall_forall. trivial. }
  intros parameter Hin.
  eapply returns_bind
    with (P := fun vu =>
                 exists n, fst vu = number_to_py n
                           /\ as_simulated
                                {| parameter := parameter; value := n;
                                   unit_label := snd vu;
                                   threshold_exceeded := false |}).
  - unfold as_simulated.
    cbn [DataModel.parameter DataModel.value DataModel.unit_label].
    destruct (pystr_eqb parameter (str "pH")) eqn:E1.
    { apply pystr_eqb_true in E1. subst parameter.
      eapply returns_bind;
        [apply (returns_float 600 900 2 (str "pH"));
         [lia|vm_compute; discriminate|distinct]|].
      intros x Hx. apply returns_ret. exists (FloatValue x).
      cbn [fst snd]. split; [reflexivity|]. split; [listed|exact Hx]. }
    destruct (pystr_eqb parameter (str "Temperatura")) eqn:E2.
    { apply pystr_eqb_true in E2. subst parameter.
      eapply returns_bind;
        [apply (returns_float 150 300 1 (str "Temperatura"));
         [lia|vm_compute; discriminate|distinct]|].
      intros x Hx. apply returns_ret. exists (FloatValue x).
      cbn [fst snd]. split; [reflexivity|]. split; [listed|exact Hx]. }
    destruct (pystr_eqb parameter (str "Turbidez")) eqn:E3.
    { apply pystr_eqb_true in E3. subst parameter.
      eapply returns_bind;
        [apply (returns_float 50 1500 2 (str "Turbidez"));
         [lia|vm_compute; discriminate|distinct]|].
      intros x Hx. apply returns_ret. exists (FloatValue x).
      cbn [fst snd]. split; [reflexivity|]. split; [listed|exact Hx]. }
    destruct (pystr_eqb parameter (str "Oxígeno disuelto")) eqn:E4.
    { apply pystr_eqb_true in E4. subst parameter.
      eapply returns_bind;
        [apply (returns_float 200 1200 2 (str "Oxígeno disuelto"));
         [lia|vm_compute; discriminate|distinct]|].
      intros x Hx. apply returns_ret. exists (FloatValue x).
      cbn [fst snd]. split; [reflexivity|]. split; [listed|exact Hx]. }
    destruct (pystr_eqb parameter (str "Coliformes totales")
              || pystr_eqb parameter (str "E. coli")) eqn:E5.
    { apply orb_true_iff in E5.
      assert (C : counted parameter)
        by (destruct E5 as [E5|E5]; apply pystr_eqb_true in E5;
            [left|right]; exact E5).
      eapply returns_bind; [apply (returns_randint I I_env 0 5000); lia|].
      intros x Hx. cbv beta in Hx. apply returns_ret.
      exists (IntValue (Z.of_N x)).
      cbn [fst snd]. split; [reflexivity|]. split.
      - destruct C as [->| ->]; listed.
      - split; [exact C|lia]. }
    apply orb_false_iff in E5. destruct E5 as [E5 E6].
    apply pystr_eqb_false in E1, E2, E3, E4, E5, E6.
    assert (C : ~ counted parameter) by (intros [C|C]; contradiction).
    eapply returns_bind;
      [apply (returns_float 10 10000 2 parameter);
       [lia|vm_compute; discriminate|exact C]|].
    intros x Hx. apply returns_ret. exists (FloatValue x).
    cbn [fst snd]. split; [reflexivity|]. split; [|exact Hx].
    unfold WATER_PARAMETERS in Hin. cbn [In] in Hin.
    repeat (destruct Hin as [<-|Hin]; [first [contradiction|listed]|]).
    contradiction.
  - intros [v u] (n & Hn & S). cbn [fst snd] in *. subst v.
    eapply returns_bind; [now apply returns_random_below|]. intros b _.
    apply returns_ret.
    exists {| parameter := parameter; value := n; unit_label := u;
              threshold_exceeded := b |}.
    split; [reflexivity|exact S].
Qed.

Lemma Forall_as_simulated vs :
  Forall (fun v => exists m, v = measurement_to_py m /\ as_simulated m) vs ->
  exists ms, vs = map measurement_to_py ms /\ Forall as_simulated ms.
Proof.
  induction 1 as [|v vs (m & -> & Vm) _ (ms & -> & Vms)].
  - exists []. split; [reflexivity|constructor].
  - exists (m :: ms). split; [reflexivity|now constructor].
Qed.

(** The record of [simulate_data_upload], field by field. *)
Lemma returns_simulated_fields :
  returns I
    (fun data =>
       exists r n upload_method,
         data = upload_to_py r
         /\ In (location r) SAMPLE_LOCATIONS
         /\ In (reporting_entity r) REPORTING_ENTITIES
         /\ Forall as_simulated (measurements r)
         /\ metadata r = simulated_metadata n upload_method
         /\ 1000 <= n <= 9999
         /\ In upload_method
              [str "API"; str "Desktop App"; str "Field Device"])
    simulate_data_upload.
Proof.
  unfold simulate_data_upload.
  eapply returns_bind with (P := fun _ => True).
  { intros w Hw. eexists _, _. split; [reflexivity|].
    split; [exact Logic.I|]. now apply (I_env w). }
  intros batch_id _.
  eapply returns_bind with (P := fun s => In s SAMPLE_LOCATIONS).
  { apply returns_choice; [assumption|now left|].
    apply Forall_forall. trivial. }
  intros location Vl.
  eapply returns_bind with (P := fun s => In s REPORTING_ENTITIES).
  { apply returns_choice; [assumption|now left|].
    apply Forall_forall. trivial. }
  intros entity Ve.
  eapply returns_bind; [apply (returns_randint I I_env 3 10); lia|].
  intros n _.
  eapply returns_bind with (P := fun _ => True).
  { intros w Hw. eexists _, _. split; [reflexivity|].
    split; [exact Logic.I|]. now apply (I_env w). }
  intros timestamp _.
  eapply returns_bind.
  { apply returns_map_m. intros _.
    apply returns_simulate_measurement_table. }
  intros vs [_ F].
  destruct (Forall_as_simulated vs F) as (ms & -> & Vms).
  eapply returns_bind; [apply (returns_randint I I_env 1000 9999); lia|].
  intros device Hd. cbv beta in Hd.
  eapply returns_bind
    with (P := fun s => In s [str "API"; str "Desktop App";
                              str "Field Device"]).
  { apply returns_choice; [assumption|now left|].
    apply Forall_forall. trivial. }
  intros upload_method Vu.
  eapply returns_bind; [now apply returns_log|]. intros _ _.
  apply returns_ret.
  exists {| batch_id := batch_id; timestamp := timestamp;
            location := location; reporting_entity := entity;
            measurements := ms;
            metadata := simulated_metadata device upload_method |}.
  exists device, upload_method.
  split; [reflexivity|].
  cbn [DataModel.measurements DataModel.location
       DataModel.reporting_entity DataModel.metadata].
  repeat split; try assumption; lia.
Qed.

End Fields.

Lemma simulated_fields w :
  exists r n upload_method w',
    simulate_data_upload w = (Return (upload_to_py r), w')
    /\ In (location r) SAMPLE_LOCATIONS
    /\ In (reporting_entity r) REPORTING_ENTITIES
    /\ Forall as_simulated (measurements r)
    /\ metadata r = simulated_metadata n upload_method
    /\ 1000 <= n <= 9999
    /\ In upload_method [str "API"; str "Desktop App"; str "Field Device"].
Proof.
  destruct (returns_simulated_fields (fun _ => True)
              (fun _ _ _ _ => Logic.I) w Logic.I)
    as (data & w' & E & (r & n & u & -> & H) & _).
  exists r, n, u, w'. split; [exact E|exact H].
Qed.

Lemma digit_listed x : x < 10 -> In x [0; 1; 2; 3; 4; 5; 6; 7; 8; 9].
Proof.
  intros H.
  assert (C : x = 0 \/ x = 1 \/ x = 2 \/ x = 3 \/ x = 4 \/ x = 5 \/ x = 6
              \/ x = 7 \/ x = 8 \/ x = 9) by lia.
  cbn [In]. intuition auto.
Qed.

(** The decimal digits of a number of four digits, checked digit by
    digit. *)
Lemma four_digits n :
  1000 <= n <= 9999 -> length (Json.N_repr n) = 4%nat.
Proof.
  intros H.
  set (digits := [0; 1; 2; 3; 4; 5; 6; 7; 8; 9]).
  assert (C : forallb (fun a => forallb (fun b => forallb (fun c =>
                forallb (fun d =>
                  Nat.eqb (length (Json.N_repr
                                     (1000 * (1 + a) + 100 * b + 10 * c + d)))
                          4)
                  digits) digits) digits) (removelast digits) = true)
    by (vm_compute; reflexivity).
  rewrite forallb_forall in C.
  assert (Ha : In (n / 1000 - 1) (removelast digits)).
  { assert (X : n / 1000 - 1 < 9)
      by (zify; Z.to_euclidean_division_equations; lia).
    pose proof (digit_listed (n / 1000 - 1) ltac:(lia)) as D.
    cbn [In removelast digits] in *. intuition lia. }
  specialize (C _ Ha). cbv beta in C. rewrite forallb_forall in C.
  specialize (C ((n / 100) mod 10)
                (digit_listed _ (N.mod_upper_bound _ 10 ltac:(lia)))).
  cbv beta in C. rewrite forallb_forall in C.
  specialize (C ((n / 10) mod 10)
                (digit_listed _ (N.mod_upper_bound _ 10 ltac:(lia)))).
  cbv beta in C. rewrite forallb_forall in C.
  specialize (C (n mod 10)
                (digit_listed _ (N.mod_upper_bound _ 10 ltac:(lia)))).
  cbv beta in C. apply Nat.eqb_eq in C.
  replace (1000 * (1 + (n / 1000 - 1)) + 100 * ((n / 100) mod 10)
           + 10 * ((n / 10) mod 10) + n mod 10) with n in C; [exact C|].
  zify. Z.to_euclidean_division_equations. lia.
Qed.

End SimulationFacts.


(** X16. The header of a simulated record: [simulate_data_upload] draws
    the location from [SAMPLE_LOCATIONS] and the reporting entity from
    [REPORTING_ENTITIES]; the device identifier is [SENSOR-] followed by
    the four digits of a number between 1000 and 9999, the upload method
    one of [API], [Desktop App] and [Field Device]; and it makes no call
    to the broker and leaves the connection object as it is. *)
Theorem simulated_record_header (w : world) :
  exists r n upload_method w',
    DataPublisher.simulate_data_upload w = (Return (upload_to_py r), w')
    /\ In (location r) DataPublisher.SAMPLE_LOCATIONS
    /\ In (reporting_entity r) DataPublisher.REPORTING_ENTITIES
    /\ metadata r = simulated_metadata n upload_method
    /\ 1000 <= n <= 9999
    /\ length (Json.N_repr n) = 4%nat
    /\ In upload_method [str "API"; str "Desktop App"; str "Field Device"]
    /\ w_calls w' = w_calls w
    /\ w_rmq w' = w_rmq w.
Proof.
  destruct (SimulationFacts.simulated_fields w)
    as (r & n & u & w' & E & L & R & _ & Md & B & U).
  exists r, n, u, w'. split; [exact E|].
  repeat split; try assumption; try lia.
  - now apply SimulationFacts.four_digits.
  - pose proof (MainFacts.keeps_simulate_data_upload w_calls
                  ltac:(reflexivity) ltac:(reflexivity) ltac:(reflexivity)
                  ltac:(reflexivity) w) as K.
    now rewrite E in K.
  - pose proof (MainFacts.keeps_simulate_data_upload w_rmq
                  ltac:(reflexivity) ltac:(reflexivity) ltac:(reflexivity)
                  ltac:(reflexivity) w) as K.
    now rewrite E in K.
Qed.

(* --------------------------------------------------------------------- *)
(** ** The properties above on sample inputs                              *)
(* --------------------------------------------------------------------- *)

(** [close] called twice on a connected process. *)
Lemma close_twice_witness :
  let w := Examples.connected Examples.env_ok in
  let w1 := snd (close w) in
  close w = (Return tt, w1)
  /\ close w1 = (Return tt, w1)
  /\ connection (w_rmq w1) <> Some true.
Proof.
  intros w w1.
  assert (C : close w = (Return tt, w1)) by (vm_compute; reflexivity).
  split; [exact C|]. exact (close_twice w w1 C).
Defined.

(** [connect] on a broker that accepts everything. *)
Lemma connect_success_witness :
  let w := Examples.world_of Examples.env_ok in
  exists w',
    connect w = (Return true, w')
    /\ w_calls w'
       = [BlockingConnection (str "localhost") 5672 (str "/") (str "guest")
            (str "guest") 600;
          Channel;
          ExchangeDeclare (str "observatorio_events") (str "topic") true]
    /\ channel (w_rmq w') = Some true.
Proof.
  intros w.
  destruct (connect_success w eq_refl eq_refl eq_refl)
    as (w' & C & Cs & _ & Ch & _).
  exists w'. split; [exact C|]. split; [|exact Ch].
  rewrite Cs. vm_compute. reflexivity.
Defined.

(** A [ValueError] of the client library on the parameters. *)
Lemma connect_other_exception_witness :
  let w := Examples.world_of Samples.env_bad_parameters in
  fst (connect w) = Raise ValueError
  /\ fst (DataPublisher.main 10 w) = Raise ValueError
  /\ fst (AdminConsumer.main w) = Return tt.
Proof.
  intros w.
  destruct (connect_other_exception Samples.env_bad_parameters
              (str "localhost") 5672 (str "guest") (str "guest") 10
              ValueError eq_refl eq_refl eq_refl) as (C & P & A).
  unfold w, Examples.world_of. rewrite C, P, A. repeat split.
Defined.

(** A record without [batch_id], on a connected process. *)
Lemma publish_without_batch_id_witness :
  let w := Examples.connected Examples.env_ok in
  channel (w_rmq w) <> None
  /\ getitem Samples.upload_without_batch_id (str "batch_id")
     = Raise (KeyError (str "batch_id"))
  /\ fst (DataPublisher.publish_notification
            Samples.upload_without_batch_id w) = Return false.
Proof.
  intros w.
  split; [vm_compute; discriminate|].
  split; [vm_compute; reflexivity|].
  destruct (publish_without_batch_id Samples.upload_without_batch_id w
              (KeyError (str "batch_id")))
    as (payload & w1 & _ & H);
    [vm_compute; discriminate|vm_compute; reflexivity|].
  rewrite (H eq_refl). reflexivity.
Defined.

(** A publish on a process that never connected. *)
Lemma publish_before_connect_witness :
  let w := Examples.world_of Examples.env_ok in
  let data := upload_to_py (Examples.upload [Examples.measurement_ok]) in
  channel (w_rmq w) = None
  /\ exists w',
       DataPublisher.publish_notification data w = (Return false, w')
       /\ w_calls w' = [].
Proof.
  intros w data.
  split; [reflexivity|].
  destruct (publish_before_connect data w eq_refl) as (w' & P & C & _).
  exists w'. split; [exact P|exact C].
Defined.

(** A record with a [datetime] in it. *)
Lemma unserialisable_value_not_acked_witness :
  let w := Examples.connected Examples.env_ok in
  dumps_utf8 Samples.upload_with_datetime = Raise TypeError
  /\ exists payload,
       fst (serialize_message Samples.upload_with_datetime w)
       = Return payload
       /\ exists consumer',
            AdminConsumer.process_message 4 payload w
            = (Raise (KeyError (str "data")), consumer')
            /\ w_calls consumer' = w_calls w.
Proof.
  intros w.
  split; [vm_compute; reflexivity|].
  destruct (unserialisable_value_not_acked Samples.upload_with_datetime
              TypeError w) as (payload & S & _ & H);
    [vm_compute; reflexivity|].
  exists payload. rewrite S. split; [reflexivity|]. exact (H 4 w).
Defined.


(** A JSON list, and an envelope whose [data] is text. *)
Lemma non_record_payload_not_acked_witness :
  let w := Examples.connected Examples.env_ok in
  (exists w',
      AdminConsumer.process_message 5 Samples.body_list w
      = (Raise TypeError, w')
      /\ w_calls w' = w_calls w)
  /\ (exists w',
         AdminConsumer.process_message 6 Samples.body_text_data w
         = (Raise TypeError, w')
         /\ w_calls w' = w_calls w).
Proof.
  intros w. split.
  - apply (non_record_payload_not_acked 5 Samples.body_list
             (PyList [PyInt 1; PyInt 2]) w).
    + vm_compute. reflexivity.
    + left. reflexivity.
  - apply (non_record_payload_not_acked 6 Samples.body_text_data
             (PyDict [(str "event_type", PyStr (str "data_upload"));
                      (str "data", PyStr (str "pH 7.25"))]) w).
    + vm_compute. reflexivity.
    + right. eexists _, _. split; [reflexivity|].
      split; [vm_compute; reflexivity|reflexivity].
Defined.




(** The publisher interrupted in its third round. *)
Lemma publisher_main_run_witness :
  let env := Samples.env_delivering [] in
  exists w' payloads,
    DataPublisher.main 10 (Examples.world_of env) = (Return tt, w')
    /\ length payloads = 3%nat
    /\ w_calls w'
       = connect_calls (new_connection (str "localhost") 5672 (str "guest")
                          (str "guest"))
         ++ map DataPublisher.publish_call payloads ++ [ConnectionClose].
Proof.
  intros env.
  destruct (publisher_main_run env (str "localhost") 5672 (str "guest")
              (str "guest") 10) as (w' & ps & E & L & C & _).
  - intros history call. reflexivity.
  - exists w', ps. split; [exact E|]. split; [exact L|exact C].
Defined.

